(** * Marketplace direct listings, primary sale and ERC20 batch minting

    A shallow embedding of three wrapper classes of the SDK:

    - [MarketplaceDirect]   (core/classes/marketplace-direct.ts)
    - [ContractPrimarySale] (core/classes/contract-sales.ts)
    - [Erc20BatchMintable]  (core/classes/erc-20-batch-mintable.ts)

    Every method is an [async] function that talks to collaborators (the
    contract wrapper, the chain, helpers of [common/]).  A method is
    modelled as a computation that reads and may write the fields of its
    own object, emits one event per call it makes to a collaborator, and
    ends with a value or with a thrown error.  What the collaborators
    answer is given by a [World]. *)

From Stdlib Require Import ZArith List String Ascii Bool Lia DecimalString.
Import ListNotations.
Local Open Scope string_scope.
Local Open Scope Z_scope.

Set Implicit Arguments.

(** ** Errors and results *)

(** The errors the code constructs itself, and the ones that reach it from
    a library or a collaborator. *)
Inductive JsError : Type :=
| ListingNotFoundError (marketplace listingId : string)
| WrongListingTypeError (marketplace listingId actual expected : string)
| Error (message : string)
| InvariantError (message : string)      (* tiny-invariant *)
| TypeError (message : string)           (* property read on undefined *)
| BigNumberError (reason : string)       (* ethers' BigNumber.from *)
| ExternalError (origin : string).       (* thrown by a collaborator *)

Inductive Res (A : Type) : Type :=
| Ok (a : A)
| Throw (e : JsError).
Arguments Ok {A} a.
Arguments Throw {A} e.

Definition is_ok {A} (r : Res A) : bool :=
  match r with Ok _ => true | Throw _ => false end.

(** ** ethers: BigNumberish, BigNumber.from *)

(** [BigNumberish = BigNumber | Bytes | bigint | string | number].  A
    [BigNumber] is an arbitrary-precision integer; a JavaScript [number]
    is restricted here to its integer values. *)
Inductive BigNumberish : Type :=
| BnBig (n : Z)
| BnBytes (bs : list Z)
| BnBigInt (n : Z)
| BnString (s : string)
| BnNumber (n : Z).

Definition MAX_SAFE : Z := 0x1fffffffffffff.

Definition digit_val (c : ascii) : option Z :=
  let n := Z.of_nat (nat_of_ascii c) in
  if (48 <=? n) && (n <=? 57) then Some (n - 48) else None.

Definition hex_val (c : ascii) : option Z :=
  let n := Z.of_nat (nat_of_ascii c) in
  if (48 <=? n) && (n <=? 57) then Some (n - 48)
  else if (97 <=? n) && (n <=? 102) then Some (n - 87)
  else if (65 <=? n) && (n <=? 70) then Some (n - 55)
  else None.

Fixpoint parse_digits (base : Z) (val : ascii -> option Z) (s : string) (acc : Z)
  : option Z :=
  match s with
  | EmptyString => Some acc
  | String c r =>
      match val c with
      | Some d => parse_digits base val r (acc * base + d)
      | None => None
      end
  end.

(** [^0x[0-9a-f]+$] (digits in either case) or [^[0-9]+$].  (With the
    prefix written [0X] ethers builds an ill-formed value that fails when
    it is first used; it is rejected here, at the conversion.) *)
Definition parse_unsigned (s : string) : option Z :=
  match s with
  | EmptyString => None
  | String "0" (String "x" EmptyString) => None
  | String "0" (String "x" r) => parse_digits 16 hex_val r 0
  | _ => parse_digits 10 digit_val s 0
  end.

Definition parse_integer (s : string) : option Z :=
  match s with
  | String "-" r => option_map Z.opp (parse_unsigned r)
  | _ => parse_unsigned s
  end.

Fixpoint bytes_value (bs : list Z) (acc : Z) : option Z :=
  match bs with
  | [] => Some acc
  | b :: r => if (0 <=? b) && (b <? 256) then bytes_value r (acc * 256 + b) else None
  end.

(** [BigNumber.from(value)].  Bytes go through [hexlify]: the empty array
    becomes ["0x"], which is no number. *)
Definition BigNumber_from (v : BigNumberish) : Res Z :=
  match v with
  | BnBig n => Ok n
  | BnString s =>
      match parse_integer s with
      | Some n => Ok n
      | None => Throw (BigNumberError "invalid BigNumber string")
      end
  | BnNumber n =>
      if (MAX_SAFE <=? n) || (n <=? - MAX_SAFE)
      then Throw (BigNumberError "overflow")
      else Ok n
  | BnBigInt n => Ok n
  | BnBytes [] => Throw (BigNumberError "invalid BigNumber string")
  | BnBytes bs =>
      match bytes_value bs 0 with
      | Some n => Ok n
      | None => Throw (BigNumberError "invalid BigNumber value")
      end
  end.

(** JavaScript truthiness of an optional [BigNumberish]: [undefined], the
    numbers [0] and [0n] and the empty string are falsy, objects are
    truthy. *)
Definition truthy (v : option BigNumberish) : bool :=
  match v with
  | None => false
  | Some (BnNumber n) => negb (n =? 0)
  | Some (BnBigInt n) => negb (n =? 0)
  | Some (BnString s) => negb (String.eqb s "")
  | Some (BnBig _) => true
  | Some (BnBytes _) => true
  end.

(** [a || b] at type [BigNumberish | undefined], with [b] defined. *)
Definition or_else (a : option BigNumberish) (b : BigNumberish) : BigNumberish :=
  match a with
  | Some v => if truthy a then v else b
  | None => b
  end.

(** [x === n] for a number literal [n]: only a number is strictly equal to
    a number. *)
Definition strict_eq_number (x : BigNumberish) (n : Z) : bool :=
  match x with
  | BnNumber m => m =? n
  | _ => false
  end.

(** [BigNumber.prototype.toString] and [BigInt.prototype.toString]: the
    integer in plain decimal. *)
Definition Z_toString (n : Z) : string := NilZero.string_of_int (Z.to_int n).

(** [c] rounds to the double whose value is [n], for [n > 0]: below
    [2^53] only [n] itself does; above, whatever lies within half an
    [ulp] of [n] (a quarter below a power of two), the ends included when
    the mantissa of [n] is even.  Everything is counted in quarters. *)
Definition rounds_to (n c : Z) : bool :=
  let e := Z.log2 n in
  if e <? 53 then c =? n
  else
    let ulp := 2 ^ (e - 52) in
    let m := n / ulp in
    let above := 2 * ulp in
    let below := if m =? 2 ^ 52 then ulp else 2 * ulp in
    if Z.even m
    then (4 * n - below <=? 4 * c) && (4 * c <=? 4 * n + above)
    else (4 * n - below <? 4 * c) && (4 * c <? 4 * n + above).

(** The decimal with the fewest digits that rounds to [n], and of those
    the closest to [n] (the even one on a tie): tried with [k] digits,
    then [k + 1], of the [N] digits of [n]. *)
Fixpoint shortest_from (fuel : nat) (n N k : Z) : Z :=
  match fuel with
  | O => n
  | S f =>
      let scale := 10 ^ (N - k) in
      let s := n / scale in
      let c1 := s * scale in
      let c2 := c1 + scale in
      match rounds_to n c1, rounds_to n c2 with
      | true, true =>
          if n - c1 <? c2 - n then c1
          else if c2 - n <? n - c1 then c2
          else if Z.even s then c1 else c2
      | true, false => c1
      | false, true => c2
      | false, false => shortest_from f n N (k + 1)
      end
  end.

(** The digits without their trailing zeros. *)
Fixpoint strip_zeros (s : string) : string :=
  match s with
  | EmptyString => EmptyString
  | String c r =>
      match strip_zeros r with
      | EmptyString => if Ascii.eqb c "0" then EmptyString else String c EmptyString
      | r' => String c r'
      end
  end.

(** [Number.prototype.toString] on a positive number with an integer
    value: the shortest digits, padded with zeros up to 21 digits and in
    exponent form beyond. *)
Definition number_toString_pos (n : Z) : string :=
  let N := String.length (Z_toString n) in
  let ds := Z_toString (shortest_from N n (Z.of_nat N) 1) in
  let L := Z.of_nat (String.length ds) in
  if L <=? 21 then ds
  else
    match strip_zeros ds with
    | EmptyString => ds
    | String c EmptyString => String c ("e+" ++ Z_toString (L - 1))
    | String c r => String c ("." ++ r ++ "e+" ++ Z_toString (L - 1))
    end.

Definition number_toString (n : Z) : string :=
  if n =? 0 then "0"
  else if n <? 0 then "-" ++ number_toString_pos (- n)
  else number_toString_pos n.

(** [Array.prototype.toString]: the elements, each printed as a number,
    joined by commas. *)
Fixpoint join_comma (l : list Z) : string :=
  match l with
  | [] => ""
  | [b] => number_toString b
  | b :: r => number_toString b ++ "," ++ join_comma r
  end.

(** [value.toString()], also what a template literal prints. *)
Definition toString (v : BigNumberish) : string :=
  match v with
  | BnBig n => Z_toString n
  | BnBigInt n => Z_toString n
  | BnNumber n => number_toString n
  | BnString s => s
  | BnBytes bs => join_comma bs
  end.

(** [String.prototype.toLowerCase] on the ASCII range. *)
Definition lower_ascii (c : ascii) : ascii :=
  let n := nat_of_ascii c in
  if (Nat.leb 65 n && Nat.leb n 90)%bool then ascii_of_nat (n + 32) else c.

Fixpoint toLowerCase (s : string) : string :=
  match s with
  | EmptyString => EmptyString
  | String c r => String (lower_ascii c) (toLowerCase r)
  end.

Definition AddressZero : string := "0x0000000000000000000000000000000000000000".

Definition MaxUint256 : Z := 2 ^ 256 - 1.

(** ** Data passed between the wrappers and their collaborators *)

(** Identity of an object the wrappers hold or pass on by reference: a
    [ContractWrapper], an [IStorage], an [Erc20], a provider or signer. *)
Definition ref : Type := nat.

(** [enums/marketplace]: [enum ListingType { Direct = 0, Auction = 1 }]. *)
Inductive ListingType : Type := Direct | Auction.

Definition ListingType_value (t : ListingType) : Z :=
  match t with Direct => 0 | Auction => 1 end.

(** [constants/contract]: the ERC165 identifiers of the two standards. *)
Definition InterfaceId_IERC721 : string := "0x80ac58cd".
Definition InterfaceId_IERC1155 : string := "0xd9b67a26".

(** Values this code only passes through. *)
Definition Price : Type := string.
Definition Amount : Type := string.
Definition Date : Type := Z.                 (* [getTime()], milliseconds *)
Variant CurrencyValue : Type := currencyValue (h : nat).
Variant NFTMetadata : Type := nftMetadata (h : nat).
Variant Offer : Type := offer (h : nat).
Variant Receipt : Type := txReceipt (h : nat).

(** A call-overrides object, as the list of its keys and values. *)
Definition CallOverrides : Type := list (string * BigNumberish).

(** [IMarketplace.ListingStruct], what [listings(id)] returns. *)
Record ListingStruct : Type := {
  ls_listingId : BigNumberish;
  ls_tokenOwner : string;
  ls_assetContract : string;
  ls_tokenId : BigNumberish;
  ls_startTime : BigNumberish;
  ls_endTime : BigNumberish;
  ls_quantity : BigNumberish;
  ls_currency : string;
  ls_reservePricePerToken : BigNumberish;
  ls_buyoutPricePerToken : BigNumberish;
  ls_tokenType : BigNumberish;
  ls_listingType : BigNumberish
}.

(** [IMarketplace.ListingParametersStruct], the argument of [createListing]. *)
Record ListingParametersStruct : Type := {
  lp_assetContract : string;
  lp_tokenId : BigNumberish;
  lp_buyoutPricePerToken : Z;
  lp_currencyToAccept : string;
  lp_listingType : ListingType;
  lp_quantityToList : BigNumberish;
  lp_reservePricePerToken : Z;
  lp_secondsUntilEndTime : BigNumberish;
  lp_startTime : Z
}.

(** What [offers(listingId, address)] returns. *)
Record OfferStruct : Type := {
  os_listingId : BigNumberish;
  os_offeror : string;
  os_quantityWanted : BigNumberish;
  os_currency : string;
  os_pricePerToken : BigNumberish;
  os_expirationTimestamp : BigNumberish
}.

(** [types/marketplace]: [DirectListing]. *)
Record DirectListing : Type := {
  dl_id : string;
  dl_sellerAddress : string;
  dl_assetContractAddress : string;
  dl_currencyContractAddress : string;
  dl_buyoutPrice : BigNumberish;
  dl_buyoutCurrencyValuePerToken : CurrencyValue;
  dl_tokenId : BigNumberish;
  dl_quantity : BigNumberish;
  dl_startTimeInSeconds : BigNumberish;
  dl_asset : NFTMetadata;
  dl_secondsUntilEnd : BigNumberish;
  dl_type : ListingType
}.

(** [types/marketplace]: [NewDirectListing]. *)
Record NewDirectListing : Type := {
  nl_assetContractAddress : string;
  nl_tokenId : BigNumberish;
  nl_startTimestamp : Date;
  nl_listingDurationInSeconds : BigNumberish;
  nl_quantity : BigNumberish;
  nl_currencyContractAddress : string;
  nl_buyoutPricePerToken : Price
}.

(** [schema]: [TokenMintInput]. *)
Record TokenMintInput : Type := {
  toAddress : string;
  amount : Amount
}.

Record TransactionResult : Type := { receipt : Receipt }.

Record TransactionResultWithId : Type := { id : Z; receipt_id : Receipt }.

(** An argument of a contract call. *)
Inductive Arg : Type :=
| ANum (v : BigNumberish)
| AStr (s : string)
| AListing (p : ListingParametersStruct).

(** ** Events: the calls a method makes to its collaborators *)

Inductive Event : Type :=
| EListings (cw : ref) (listingId : BigNumberish)
| EOffers (cw : ref) (listingId : BigNumberish) (address : string)
| EPrimarySaleRecipient (cw : ref)
| EGetSignerAddress (cw : ref)
| EGetCallOverrides (cw : ref)
| EGetBlock (provider : ref) (tag : string)
| ESendTransaction (cw : ref) (fn : string) (args : list Arg)
    (overrides : option CallOverrides)
| EMultiCall (cw : ref) (encoded : list string)
| ESupportsInterface (asset : string) (provider : ref) (interfaceId : string)
| EOwnerOf (asset : string) (provider : ref) (tokenId : BigNumberish)
| EBalanceOf (asset : string) (provider : ref) (owner : string)
    (tokenId : BigNumberish)
| ENormalizePriceValue (provider : ref) (price : Price) (currency : string)
| ESetErc20Allowance (cw : ref) (value : Z) (currency : string)
    (overrides : CallOverrides)
| EFetchCurrencyValue (provider : ref) (currency : string) (price : BigNumberish)
| EFetchTokenMetadata (asset : string) (provider : ref) (tokenId : BigNumberish)
    (storage : ref)
| EHandleTokenApproval (signerOrProvider : ref) (marketplace asset : string)
    (tokenId : BigNumberish) (from : string)
| EIsTokenApproved (provider : ref) (marketplace asset : string)
    (tokenId : BigNumberish) (from : string)
| EMapOffer (provider : ref) (listingId : Z) (o : OfferStruct)
| ENormalizeAmount (erc20 : ref) (amount : Amount)
| EConsoleError (message : string) (err : option JsError).

(** ** The world: what each collaborator answers

    None of these functions is part of the three classes; each is a
    parameter of the model.  A call that can reject or throw answers in
    [Res]. *)
Record World : Type := {
  (* ContractWrapper *)
  cw_address : ref -> string;
  cw_getProvider : ref -> ref;
  cw_getSignerOrProvider : ref -> ref;
  cw_getSignerAddress : ref -> Res string;
  cw_getCallOverrides : ref -> Res (option CallOverrides);
  cw_listings : ref -> BigNumberish -> Res ListingStruct;
  cw_offers : ref -> BigNumberish -> string -> Res OfferStruct;
  cw_primarySaleRecipient : ref -> Res string;
  cw_encodeFunctionData : ref -> string -> list Arg -> Res string;
  cw_sendTransaction :
    ref -> string -> list Arg -> option CallOverrides -> Res Receipt;
  cw_multiCall : ref -> list string -> Res Receipt;
  cw_parseLogs : ref -> string -> Receipt -> list Z;
  (* provider, and the asset contract reached through it *)
  provider_getBlock : ref -> string -> Res Z;
  supportsInterface : string -> ref -> string -> Res bool;
  ownerOf : string -> ref -> BigNumberish -> Res string;
  balanceOf : string -> ref -> string -> BigNumberish -> Res Z;
  (* common/currency *)
  isNativeToken : string -> bool;
  normalizePriceValue : ref -> Price -> string -> Res Z;
  setErc20Allowance : ref -> Z -> string -> CallOverrides -> Res CallOverrides;
  fetchCurrencyValue : ref -> string -> BigNumberish -> Res CurrencyValue;
  (* common/nft *)
  fetchTokenMetadataForContract :
    string -> ref -> BigNumberish -> ref -> Res NFTMetadata;
  (* common/marketplace *)
  handleTokenApproval :
    ref -> string -> string -> BigNumberish -> string -> Res unit;
  isTokenApprovedForMarketplace :
    ref -> string -> string -> BigNumberish -> string -> Res bool;
  mapOffer : ref -> Z -> OfferStruct -> Res Offer;
  validateNewListingParam : NewDirectListing -> Res unit;
  (* ethers utils *)
  isAddress : string -> bool;
  (* Erc20 *)
  normalizeAmount : ref -> Amount -> Res Z
}.

(** ** The monad of a method

    A method of a class with fields [O] starts from the object's fields
    and ends with a result, the fields as it left them and the events it
    emitted, oldest first. *)
Record Outcome (O A : Type) : Type := mkOutcome {
  result : Res A;
  self : O;
  trace : list Event
}.

Definition M (O A : Type) : Type := O -> Outcome O A.

Definition ret {O A} (a : A) : M O A := fun o => mkOutcome (Ok a) o [].

Definition throw {O A} (e : JsError) : M O A := fun o => mkOutcome (Throw e) o [].

Definition bind {O A B} (m : M O A) (k : A -> M O B) : M O B :=
  fun o =>
    match m o with
    | mkOutcome (Ok a) o1 t1 =>
        match k a o1 with
        | mkOutcome r o2 t2 => mkOutcome r o2 (t1 ++ t2)
        end
    | mkOutcome (Throw e) o1 t1 => mkOutcome (Throw e) o1 t1
    end.

(** [try { m } catch (err) { h err }]. *)
Definition try_catch {O A} (m : M O A) (h : JsError -> M O A) : M O A :=
  fun o =>
    match m o with
    | mkOutcome (Ok a) o1 t1 => mkOutcome (Ok a) o1 t1
    | mkOutcome (Throw e) o1 t1 =>
        match h e o1 with
        | mkOutcome r o2 t2 => mkOutcome r o2 (t1 ++ t2)
        end
    end.

(** A value or an error a library function produced, no call made. *)
Definition lift {O A} (r : Res A) : M O A := fun o => mkOutcome r o [].

(** One call to a collaborator, with the answer the world gives. *)
Definition call {O A} (ev : Event) (r : Res A) : M O A :=
  fun o => mkOutcome r o [ev].

(** [this], and an assignment to a field of [this]. *)
Definition this {O} : M O O := fun o => mkOutcome (Ok o) o [].

Definition assign {O} (f : O -> O) : M O unit :=
  fun o => mkOutcome (Ok tt) (f o) [].

(** [invariant(cond, message)]. *)
Definition invariant {O} (cond : bool) (message : string) : M O unit :=
  if cond then ret tt else throw (InvariantError message).

Declare Scope js_scope.
Delimit Scope js_scope with js.
Notation "x <- c1 ;; c2" := (bind c1 (fun x => c2))
  (at level 61, c1 at next level, right associativity) : js_scope.
Notation "c1 ;; c2" := (bind c1 (fun _ => c2))
  (at level 61, right associativity) : js_scope.
Local Open Scope js_scope.

(** A method preserves the fields of its object. *)
Definition frame {O A} (m : M O A) : Prop := forall o, self (m o) = o.

(** ** ContractPrimarySale *)

Module ContractPrimarySale.

Record t : Type := {
  featureName : string;
  contractWrapper : ref
}.

Section Methods.
Variable w : World.
(** [FEATURE_PRIMARY_SALE.name], of [constants/thirdweb-features]. *)
Variable FEATURE_PRIMARY_SALE_name : string.

Definition constructor (cw : ref) : M t unit :=
  assign (fun o => {| featureName := FEATURE_PRIMARY_SALE_name;
                      contractWrapper := contractWrapper o |}) ;;
  assign (fun o => {| featureName := featureName o; contractWrapper := cw |}).

Definition getRecipient : M t string :=
  o <- this ;;
  call (EPrimarySaleRecipient (contractWrapper o))
       (cw_primarySaleRecipient w (contractWrapper o)).

Definition setRecipient (recipient : string) : M t TransactionResult :=
  o <- this ;;
  r <- call (ESendTransaction (contractWrapper o) "setPrimarySaleRecipient"
               [AStr recipient] None)
            (cw_sendTransaction w (contractWrapper o) "setPrimarySaleRecipient"
               [AStr recipient] None) ;;
  ret {| receipt := r |}.
End Methods.

End ContractPrimarySale.

(** ** Erc20BatchMintable *)

Module Erc20BatchMintable.

Record t : Type := {
  featureName : string;
  contractWrapper : ref;
  erc20 : ref
}.

Section Methods.
Variable w : World.
(** [FEATURE_TOKEN_BATCH_MINTABLE.name], of [constants/erc20-features]. *)
Variable FEATURE_TOKEN_BATCH_MINTABLE_name : string.

Definition constructor (e cw : ref) : M t unit :=
  assign (fun o => {| featureName := FEATURE_TOKEN_BATCH_MINTABLE_name;
                      contractWrapper := contractWrapper o;
                      erc20 := erc20 o |}) ;;
  assign (fun o => {| featureName := featureName o;
                      contractWrapper := contractWrapper o;
                      erc20 := e |}) ;;
  assign (fun o => {| featureName := featureName o;
                      contractWrapper := cw;
                      erc20 := erc20 o |}).

(** The body of [for (const arg of args)]: one [encoded.push(...)]. *)
Definition encode_one (arg : TokenMintInput) : M t string :=
  o <- this ;;
  n <- call (ENormalizeAmount (erc20 o) (amount arg))
            (normalizeAmount w (erc20 o) (amount arg)) ;;
  lift (cw_encodeFunctionData w (contractWrapper o) "mintTo"
          [AStr (toAddress arg); ANum (BnBig n)]).

(** The loop, from the array [encoded] built so far. *)
Fixpoint encode_loop (args : list TokenMintInput) (encoded : list string)
  : M t (list string) :=
  match args with
  | [] => ret encoded
  | arg :: rest =>
      e <- encode_one arg ;;
      encode_loop rest (encoded ++ [e])
  end.

Definition to (args : list TokenMintInput) : M t TransactionResult :=
  encoded <- encode_loop args [] ;;
  o <- this ;;
  r <- call (EMultiCall (contractWrapper o) encoded)
            (cw_multiCall w (contractWrapper o) encoded) ;;
  ret {| receipt := r |}.
End Methods.

End Erc20BatchMintable.

(** ** MarketplaceDirect *)

Module MarketplaceDirect.

Record t : Type := {
  contractWrapper : ref;
  storage : ref
}.

Definition msg_native_offer : string :=
  "You must use the wrapped native token address when making an offer with a native token".

Definition msg_moved : string :=
  "The asset on this listing has been moved from the lister's wallet, this listing is now invalid".

Definition msg_get_listing : string := "Error getting the listing with id ".

Section Methods.
Variable w : World.

Definition constructor (cw st : ref) : M t unit :=
  assign (fun o => {| contractWrapper := cw; storage := storage o |}) ;;
  assign (fun o => {| contractWrapper := contractWrapper o; storage := st |}).

(** [this.contractWrapper] and [this.contractWrapper.getProvider()]. *)
Definition wrapper : M t ref := o <- this ;; ret (contractWrapper o).

Definition getProvider : M t ref := c <- wrapper ;; ret (cw_getProvider w c).

Definition getAddress : M t string := c <- wrapper ;; ret (cw_address w c).

Definition console_error (message : string) (err : option JsError) : M t unit :=
  call (EConsoleError message err) (Ok tt).

(** *** Read functions *)

Definition mapListing (listing : ListingStruct) : M t DirectListing :=
  buyoutPrice <- lift (BigNumber_from (ls_buyoutPricePerToken listing)) ;;
  provider <- getProvider ;;
  value <- call (EFetchCurrencyValue provider (ls_currency listing)
                   (ls_buyoutPricePerToken listing))
                (fetchCurrencyValue w provider (ls_currency listing)
                   (ls_buyoutPricePerToken listing)) ;;
  provider' <- getProvider ;;
  o <- this ;;
  asset <- call (EFetchTokenMetadata (ls_assetContract listing) provider'
                   (ls_tokenId listing) (storage o))
                (fetchTokenMetadataForContract w (ls_assetContract listing)
                   provider' (ls_tokenId listing) (storage o)) ;;
  ret {| dl_assetContractAddress := ls_assetContract listing;
         dl_buyoutPrice := BnBig buyoutPrice;
         dl_currencyContractAddress := ls_currency listing;
         dl_buyoutCurrencyValuePerToken := value;
         dl_id := toString (ls_listingId listing);
         dl_tokenId := ls_tokenId listing;
         dl_quantity := ls_quantity listing;
         dl_startTimeInSeconds := ls_startTime listing;
         dl_asset := asset;
         dl_secondsUntilEnd := ls_endTime listing;
         dl_sellerAddress := ls_tokenOwner listing;
         dl_type := Direct |}.

Definition getListing (listingId : BigNumberish) : M t DirectListing :=
  c <- wrapper ;;
  listing <- call (EListings c listingId) (cw_listings w c listingId) ;;
  if String.eqb (ls_assetContract listing) AddressZero then
    a <- getAddress ;;
    throw (ListingNotFoundError a (toString listingId))
  else if negb (strict_eq_number (ls_listingType listing)
                  (ListingType_value Direct)) then
    a <- getAddress ;;
    throw (WrongListingTypeError a (toString listingId) "Auction" "Direct")
  else mapListing listing.

(** [validateListing(listingId: BigNumber)] (private). *)
Definition validateListing (listingId : Z) : M t DirectListing :=
  try_catch (getListing (BnBig listingId))
    (fun err =>
       console_error (msg_get_listing ++ Z_toString listingId) None ;;
       throw err).

Definition getActiveOffer (listingId : BigNumberish) (address : string)
  : M t (option Offer) :=
  n <- lift (BigNumber_from listingId) ;;
  validateListing n ;;
  invariant (isAddress w address) "Address must be a valid address" ;;
  c <- wrapper ;;
  offers <- call (EOffers c listingId address) (cw_offers w c listingId address) ;;
  if String.eqb (os_offeror offers) AddressZero then ret None
  else
    provider <- getProvider ;;
    n' <- lift (BigNumber_from listingId) ;;
    o <- call (EMapOffer provider n' offers) (mapOffer w provider n' offers) ;;
    ret (Some o).

(** [isStillValidListing(listing, quantity?)]. *)
Definition isStillValidListing (listing : DirectListing)
    (quantity : option BigNumberish) : M t bool :=
  provider <- getProvider ;;
  a <- getAddress ;;
  approved <- call (EIsTokenApproved provider a (dl_assetContractAddress listing)
                      (dl_tokenId listing) (dl_sellerAddress listing))
                   (isTokenApprovedForMarketplace w provider a
                      (dl_assetContractAddress listing) (dl_tokenId listing)
                      (dl_sellerAddress listing)) ;;
  if negb approved then ret false
  else
    provider <- getProvider ;;
    let asset := dl_assetContractAddress listing in
    isERC721 <- call (ESupportsInterface asset provider InterfaceId_IERC721)
                     (supportsInterface w asset provider InterfaceId_IERC721) ;;
    isERC1155 <- call (ESupportsInterface asset provider InterfaceId_IERC1155)
                      (supportsInterface w asset provider InterfaceId_IERC1155) ;;
    if isERC721 : bool then
      owner <- call (EOwnerOf asset provider (dl_tokenId listing))
                    (ownerOf w asset provider (dl_tokenId listing)) ;;
      ret (String.eqb (toLowerCase owner) (toLowerCase (dl_sellerAddress listing)))
    else if isERC1155 : bool then
      balance <- call (EBalanceOf asset provider (dl_sellerAddress listing)
                         (dl_tokenId listing))
                      (balanceOf w asset provider (dl_sellerAddress listing)
                         (dl_tokenId listing)) ;;
      other <- lift (BigNumber_from (or_else quantity (dl_quantity listing))) ;;
      ret (other <=? balance)
    else
      console_error "Contract does not implement ERC 1155 or ERC 721." None ;;
      ret false.

(** *** Write functions *)

Definition gas_overrides : CallOverrides := [("gasLimit", BnNumber 500000)].

(** The struct literal [createListing] sends. *)
Definition listingParameters (listing : NewDirectListing)
    (normalizedPricePerToken startTime : Z) : ListingParametersStruct :=
  {| lp_assetContract := nl_assetContractAddress listing;
     lp_tokenId := nl_tokenId listing;
     lp_buyoutPricePerToken := normalizedPricePerToken;
     lp_currencyToAccept := nl_currencyContractAddress listing;
     lp_listingType := Direct;
     lp_quantityToList := nl_quantity listing;
     lp_reservePricePerToken := normalizedPricePerToken;
     lp_secondsUntilEndTime := nl_listingDurationInSeconds listing;
     lp_startTime := startTime |}.

Definition createListing (listing : NewDirectListing)
  : M t TransactionResultWithId :=
  lift (validateNewListingParam w listing) ;;
  c <- wrapper ;;
  a <- getAddress ;;
  signer <- call (EGetSignerAddress c) (cw_getSignerAddress w c) ;;
  call (EHandleTokenApproval (cw_getSignerOrProvider w c) a
          (nl_assetContractAddress listing) (nl_tokenId listing) signer)
       (handleTokenApproval w (cw_getSignerOrProvider w c) a
          (nl_assetContractAddress listing) (nl_tokenId listing) signer) ;;
  provider <- getProvider ;;
  normalizedPricePerToken <-
    call (ENormalizePriceValue provider (nl_buyoutPricePerToken listing)
            (nl_currencyContractAddress listing))
         (normalizePriceValue w provider (nl_buyoutPricePerToken listing)
            (nl_currencyContractAddress listing)) ;;
  let listingStartTime := nl_startTimestamp listing / 1000 in
  provider' <- getProvider ;;
  blockTime <- call (EGetBlock provider' "latest")
                    (provider_getBlock w provider' "latest") ;;
  let listingStartTime :=
    if listingStartTime <? blockTime then blockTime else listingStartTime in
  startTime <- lift (BigNumber_from (BnNumber listingStartTime)) ;;
  let params := listingParameters listing normalizedPricePerToken startTime in
  r <- call (ESendTransaction c "createListing" [AListing params]
               (Some gas_overrides))
            (cw_sendTransaction w c "createListing" [AListing params]
               (Some gas_overrides)) ;;
  match cw_parseLogs w c "ListingAdded" r with
  | listingId :: _ => ret {| id := listingId; receipt_id := r |}
  | [] => throw (TypeError "Cannot read properties of undefined (reading 'args')")
  end.

(** [(await this.contractWrapper.getCallOverrides()) || {}]. *)
Definition getCallOverrides : M t CallOverrides :=
  c <- wrapper ;;
  ov <- call (EGetCallOverrides c) (cw_getCallOverrides w c) ;;
  ret (match ov with Some o => o | None => [] end).

(** [setErc20Allowance] may write into the [overrides] object it is
    given; the world answers with the object as the call left it, and
    the transaction that follows is sent with that object. *)
Definition allowance (value : Z) (currency : string) (overrides : CallOverrides)
  : M t CallOverrides :=
  c <- wrapper ;;
  call (ESetErc20Allowance c value currency overrides)
       (setErc20Allowance w c value currency overrides).

Definition sendTransaction (fn : string) (args : list Arg)
    (overrides : option CallOverrides) : M t TransactionResult :=
  c <- wrapper ;;
  r <- call (ESendTransaction c fn args overrides)
            (cw_sendTransaction w c fn args overrides) ;;
  ret {| receipt := r |}.

(** [MaxUint256], or [BigNumber.from(Math.floor(date.getTime() / 1000))]
    when an expiration date is given. *)
Definition expirationTimestamp_of (expirationDate : option Date) : Res Z :=
  match expirationDate with
  | Some d => BigNumber_from (BnNumber (d / 1000))
  | None => Ok MaxUint256
  end.

Definition makeOffer (listingId quantityDesired : BigNumberish)
    (currencyContractAddress : string) (pricePerToken : Price)
    (expirationDate : option Date) : M t TransactionResult :=
  if isNativeToken w currencyContractAddress then throw (Error msg_native_offer)
  else
    provider <- getProvider ;;
    normalizedPrice <-
      call (ENormalizePriceValue provider pricePerToken currencyContractAddress)
           (normalizePriceValue w provider pricePerToken currencyContractAddress) ;;
    try_catch (getListing listingId)
      (fun err =>
         console_error "Failed to get listing, err =" (Some err) ;;
         throw (Error (msg_get_listing ++ toString listingId))) ;;
    quantity <- lift (BigNumber_from quantityDesired) ;;
    let value := normalizedPrice * quantity in
    overrides <- getCallOverrides ;;
    overrides' <- allowance value currencyContractAddress overrides ;;
    expirationTimestamp <- lift (expirationTimestamp_of expirationDate) ;;
    sendTransaction "offer"
      [ANum listingId; ANum quantityDesired; AStr currencyContractAddress;
       ANum (BnBig normalizedPrice); ANum (BnBig expirationTimestamp)]
      (Some overrides').

Definition acceptOffer (listingId : BigNumberish) (addressOfOfferor : string)
  : M t TransactionResult :=
  n <- lift (BigNumber_from listingId) ;;
  validateListing n ;;
  c <- wrapper ;;
  o <- call (EOffers c listingId addressOfOfferor)
            (cw_offers w c listingId addressOfOfferor) ;;
  sendTransaction "acceptOffer"
    [ANum listingId; AStr addressOfOfferor; AStr (os_currency o);
     ANum (os_pricePerToken o)] None.

Definition buyoutListing (listingId quantityDesired : BigNumberish)
    (receiver : option string) : M t TransactionResult :=
  n <- lift (BigNumber_from listingId) ;;
  listing <- validateListing n ;;
  valid <- isStillValidListing listing (Some quantityDesired) ;;
  if negb valid then throw (Error msg_moved)
  else
    buyFor <-
      match receiver with
      | Some r =>
          if String.eqb r "" then
            c <- wrapper ;; call (EGetSignerAddress c) (cw_getSignerAddress w c)
          else ret r
      | None =>
          c <- wrapper ;; call (EGetSignerAddress c) (cw_getSignerAddress w c)
      end ;;
    quantity <- lift (BigNumber_from quantityDesired) ;;
    price <- lift (BigNumber_from (dl_buyoutPrice listing)) ;;
    let value := price * quantity in
    overrides <- getCallOverrides ;;
    overrides' <- allowance value (dl_currencyContractAddress listing) overrides ;;
    sendTransaction "buy"
      [ANum listingId; AStr buyFor; ANum (BnBig quantity);
       AStr (dl_currencyContractAddress listing); ANum (BnBig value)]
      (Some overrides').

Definition updateListing (listing : DirectListing) : M t TransactionResult :=
  sendTransaction "updateListing"
    [ANum (BnString (dl_id listing)); ANum (dl_quantity listing);
     ANum (dl_buyoutPrice listing); ANum (dl_buyoutPrice listing);
     AStr (dl_currencyContractAddress listing);
     ANum (dl_startTimeInSeconds listing); ANum (dl_secondsUntilEnd listing)]
    None.

Definition cancelListing (listingId : BigNumberish) : M t TransactionResult :=
  sendTransaction "cancelDirectListing" [ANum listingId] None.
End Methods.

End MarketplaceDirect.

(** Methods unfold only on request. *)
Arguments BigNumber_from : simpl never.
Arguments MarketplaceDirect.wrapper : simpl never.
Arguments MarketplaceDirect.getProvider : simpl never.
Arguments MarketplaceDirect.getAddress : simpl never.
Arguments MarketplaceDirect.console_error : simpl never.
Arguments MarketplaceDirect.mapListing : simpl never.
Arguments MarketplaceDirect.getListing : simpl never.
Arguments MarketplaceDirect.validateListing : simpl never.
Arguments MarketplaceDirect.getActiveOffer : simpl never.
Arguments MarketplaceDirect.isStillValidListing : simpl never.
Arguments MarketplaceDirect.createListing : simpl never.
Arguments MarketplaceDirect.getCallOverrides : simpl never.
Arguments MarketplaceDirect.allowance : simpl never.
Arguments MarketplaceDirect.sendTransaction : simpl never.
Arguments MarketplaceDirect.makeOffer : simpl never.
Arguments MarketplaceDirect.acceptOffer : simpl never.
Arguments MarketplaceDirect.buyoutListing : simpl never.
Arguments Erc20BatchMintable.encode_one : simpl never.
Arguments Erc20BatchMintable.to : simpl never.

(** ** Sample worlds

    A scenario fixes what the chain holds; [world_of] completes it to a
    world whose helpers all answer. *)

Definition market : string := "0x9999999999999999999999999999999999999999".
Definition seller : string := "0x1111111111111111111111111111111111abcdef".
Definition seller_checksum : string := "0x1111111111111111111111111111111111AbCdEf".
Definition buyer : string := "0x2222222222222222222222222222222222222222".
Definition asset_addr : string := "0xAaAaAaAaAaAaAaAaAaAaAaAaAaAaAaAaAaAaAaAa".
Definition token_addr : string := "0xCcCcCcCcCcCcCcCcCcCcCcCcCcCcCcCcCcCcCcCc".
Definition NATIVE_TOKEN_ADDRESS : string :=
  "0xeeeeeeeeeeeeeeeeeeeeeeeeeeeeeeeeeeeeeeee".

Record Scenario : Type := {
  sc_listing : Res ListingStruct;
  sc_offer : OfferStruct;
  sc_approved : bool;
  sc_erc721 : bool;
  sc_erc1155 : bool;
  sc_owner : string;
  sc_balance : Z;
  sc_blockTime : Z
}.

Definition render_arg (a : Arg) : string :=
  match a with
  | ANum v => toString v
  | AStr s => s
  | AListing _ => "{}"
  end.

Definition units (s : string) : Res Z :=
  match parse_integer s with
  | Some n => Ok (n * 10 ^ 18)
  | None => Throw (ExternalError "units")
  end.

Definition world_of (sc : Scenario) : World := {|
  cw_address := fun _ => market;
  cw_getProvider := fun c => (c + 100)%nat;
  cw_getSignerOrProvider := fun c => (c + 200)%nat;
  cw_getSignerAddress := fun _ => Ok buyer;
  cw_getCallOverrides := fun _ => Ok None;
  cw_listings := fun _ _ => sc_listing sc;
  cw_offers := fun _ _ _ => Ok (sc_offer sc);
  cw_primarySaleRecipient := fun _ => Ok seller;
  cw_encodeFunctionData := fun _ fn args =>
    Ok (fn ++ "(" ++ String.concat "," (map render_arg args) ++ ")");
  cw_sendTransaction := fun _ _ _ _ => Ok (txReceipt 1);
  cw_multiCall := fun _ _ => Ok (txReceipt 2);
  cw_parseLogs := fun _ _ _ => [7];
  provider_getBlock := fun _ _ => Ok (sc_blockTime sc);
  supportsInterface := fun _ _ i =>
    Ok (if String.eqb i InterfaceId_IERC721 then sc_erc721 sc
        else if String.eqb i InterfaceId_IERC1155 then sc_erc1155 sc
        else false);
  ownerOf := fun _ _ _ => Ok (sc_owner sc);
  balanceOf := fun _ _ _ _ => Ok (sc_balance sc);
  isNativeToken := fun a =>
    String.eqb (toLowerCase a) NATIVE_TOKEN_ADDRESS
    || String.eqb (toLowerCase a) AddressZero;
  normalizePriceValue := fun _ p _ => units p;
  setErc20Allowance := fun _ _ _ ov => Ok ov;
  fetchCurrencyValue := fun _ _ _ => Ok (currencyValue 0);
  fetchTokenMetadataForContract := fun _ _ _ _ => Ok (nftMetadata 0);
  handleTokenApproval := fun _ _ _ _ _ => Ok tt;
  isTokenApprovedForMarketplace := fun _ _ _ _ _ => Ok (sc_approved sc);
  mapOffer := fun _ _ _ => Ok (offer 0);
  validateNewListingParam := fun _ => Ok tt;
  isAddress := fun a => (String.length a =? 42)%nat && String.prefix "0x" a;
  normalizeAmount := fun _ a => units a
|}.

(** Listing 7: three tokens of id 5 at [asset_addr], 2 units of
    [token_addr] each. *)
Definition listing7 (assetContract : string) (listingType : Z) : ListingStruct := {|
  ls_listingId := BnBig 7;
  ls_tokenOwner := seller;
  ls_assetContract := assetContract;
  ls_tokenId := BnBig 5;
  ls_startTime := BnBig 1700000000;
  ls_endTime := BnBig 1700086400;
  ls_quantity := BnBig 3;
  ls_currency := token_addr;
  ls_reservePricePerToken := BnBig 2000000000000000000;
  ls_buyoutPricePerToken := BnBig 2000000000000000000;
  ls_tokenType := BnNumber 0;
  ls_listingType := BnNumber listingType
|}.

Definition no_offer : OfferStruct := {|
  os_listingId := BnBig 0;
  os_offeror := AddressZero;
  os_quantityWanted := BnBig 0;
  os_currency := AddressZero;
  os_pricePerToken := BnBig 0;
  os_expirationTimestamp := BnBig 0
|}.

Definition scenario (listing : ListingStruct) (erc721 erc1155 : bool)
    (owner : string) (balance : Z) : Scenario := {|
  sc_listing := Ok listing;
  sc_offer := no_offer;
  sc_approved := true;
  sc_erc721 := erc721;
  sc_erc1155 := erc1155;
  sc_owner := owner;
  sc_balance := balance;
  sc_blockTime := 1700000100
|}.

(** A direct listing of an ERC721 token the seller still owns. *)
Definition w_direct : World :=
  world_of (scenario (listing7 asset_addr 0) true false seller 0).

(** The same listing, registered as an auction. *)
Definition w_auction : World :=
  world_of (scenario (listing7 asset_addr 1) true false seller 0).

(** A slot of the contract that holds no listing. *)
Definition w_missing : World :=
  world_of (scenario (listing7 AddressZero 0) false false AddressZero 0).

(** A slot with no asset contract and the auction type. *)
Definition w_zero_auction : World :=
  world_of (scenario (listing7 AddressZero 1) false false AddressZero 0).

(** An asset contract that answers to both interface ids; the seller no
    longer owns the token but holds a balance of 3. *)
Definition w_both : World :=
  world_of (scenario (listing7 asset_addr 0) true true buyer 3).

(** An ERC1155 asset of which the seller holds nothing. *)
Definition w_1155_empty : World :=
  world_of (scenario (listing7 asset_addr 0) false true seller 0).

(** An ERC1155 asset of which the seller holds 3. *)
Definition w_1155 : World :=
  world_of (scenario (listing7 asset_addr 0) false true seller 3).

Definition md0 : MarketplaceDirect.t :=
  {| MarketplaceDirect.contractWrapper := 1%nat; MarketplaceDirect.storage := 2%nat |}.

Definition bm0 : Erc20BatchMintable.t :=
  {| Erc20BatchMintable.featureName := "ERC20BatchMintable";
     Erc20BatchMintable.contractWrapper := 1%nat;
     Erc20BatchMintable.erc20 := 3%nat |}.

(** The [DirectListing] that listing 7 maps to in the sample worlds. *)
Definition direct7 : DirectListing := {|
  dl_id := "7";
  dl_sellerAddress := seller;
  dl_assetContractAddress := asset_addr;
  dl_currencyContractAddress := token_addr;
  dl_buyoutPrice := BnBig 2000000000000000000;
  dl_buyoutCurrencyValuePerToken := currencyValue 0;
  dl_tokenId := BnBig 5;
  dl_quantity := BnBig 3;
  dl_startTimeInSeconds := BnBig 1700000000;
  dl_asset := nftMetadata 0;
  dl_secondsUntilEnd := BnBig 1700086400;
  dl_type := Direct
|}.

Definition newListing : NewDirectListing := {|
  nl_assetContractAddress := asset_addr;
  nl_tokenId := BnString "5";
  nl_startTimestamp := 1700000000999;
  nl_listingDurationInSeconds := BnNumber 86400;
  nl_quantity := BnNumber 1;
  nl_currencyContractAddress := NATIVE_TOKEN_ADDRESS;
  nl_buyoutPricePerToken := "2"
|}.
(** ** Statements

    The predicates the properties below are stated with. *)

(** A method never emits an event of a given kind. *)
Definition quiet {O A} (p : Event -> bool) (m : M O A) : Prop :=
  forall o ev, In ev (trace (m o)) -> p ev = false.

(** Events that change something on the chain (a transaction, an allowance,
    a token approval), and reads of an offer. *)
Definition is_write (ev : Event) : bool :=
  match ev with
  | ESendTransaction _ _ _ _ | EMultiCall _ _
  | ESetErc20Allowance _ _ _ _ | EHandleTokenApproval _ _ _ _ _ => true
  | _ => false
  end.

Definition is_offers_read (ev : Event) : bool :=
  match ev with EOffers _ _ _ => true | _ => false end.

(** Reads of the signer's address. *)
Definition is_signer_read (ev : Event) : bool :=
  match ev with EGetSignerAddress _ => true | _ => false end.

(** When [isStillValidListing (listing, quantity)] answers [true]: the
    marketplace is approved, both interface queries answer, and either
    the asset is an ERC721 whose owner is the seller (compared in lower
    case), or it is not an ERC721, is an ERC1155, and the seller's balance
    covers [quantity || listing.quantity]. *)
Definition still_valid (w : World) (o : MarketplaceDirect.t) (l : DirectListing)
    (q : option BigNumberish) : Prop :=
  let p := cw_getProvider w (MarketplaceDirect.contractWrapper o) in
  let m := cw_address w (MarketplaceDirect.contractWrapper o) in
  let a := dl_assetContractAddress l in
  isTokenApprovedForMarketplace w p m a (dl_tokenId l) (dl_sellerAddress l) = Ok true /\
  exists isERC721 isERC1155,
    supportsInterface w a p InterfaceId_IERC721 = Ok isERC721 /\
    supportsInterface w a p InterfaceId_IERC1155 = Ok isERC1155 /\
    if isERC721 : bool then
      exists owner,
        ownerOf w a p (dl_tokenId l) = Ok owner /\
        toLowerCase owner = toLowerCase (dl_sellerAddress l)
    else
      isERC1155 = true /\
      exists balance n,
        balanceOf w a p (dl_sellerAddress l) (dl_tokenId l) = Ok balance /\
        BigNumber_from (or_else q (dl_quantity l)) = Ok n /\
        n <= balance.

(** The condition of C1 as it is written: the two standards side by side,
    and the quantity argument used whenever one is supplied. *)
Definition still_valid_as_written (w : World) (o : MarketplaceDirect.t)
    (l : DirectListing) (q : option BigNumberish) : Prop :=
  let p := cw_getProvider w (MarketplaceDirect.contractWrapper o) in
  let m := cw_address w (MarketplaceDirect.contractWrapper o) in
  let a := dl_assetContractAddress l in
  isTokenApprovedForMarketplace w p m a (dl_tokenId l) (dl_sellerAddress l) = Ok true /\
  ((supportsInterface w a p InterfaceId_IERC721 = Ok true /\
    exists owner,
      ownerOf w a p (dl_tokenId l) = Ok owner /\
      toLowerCase owner = toLowerCase (dl_sellerAddress l))
   \/
   (supportsInterface w a p InterfaceId_IERC1155 = Ok true /\
    exists balance n,
      balanceOf w a p (dl_sellerAddress l) (dl_tokenId l) = Ok balance /\
      BigNumber_from (match q with Some v => v | None => dl_quantity l end) = Ok n /\
      n <= balance)).

(** The first half of C10 as it is written. *)
Definition getActiveOffer_as_written (w : World) (i : BigNumberish) (a : string)
    (o : MarketplaceDirect.t) : Prop :=
  forall os,
    cw_offers w (MarketplaceDirect.contractWrapper o) i a = Ok os ->
    os_offeror os = AddressZero ->
    result (MarketplaceDirect.getActiveOffer w i a o) = Ok None.

(** The second half of C5 as it is written: any listing that exists. *)
Definition makeOffer_as_written (w : World) (i q : BigNumberish) (cur : string)
    (price : Price) (exp : option Date) (o : MarketplaceDirect.t) : Prop :=
  isNativeToken w cur = false ->
  (exists l,
     cw_listings w (MarketplaceDirect.contractWrapper o) i = Ok l /\
     ls_assetContract l <> AddressZero) ->
  exists c args ov,
    In (ESendTransaction c "offer" args ov)
       (trace (MarketplaceDirect.makeOffer w i q cur price exp o)).

(** [e] is the ABI encoding of [mintTo] applied to the input's address and
    to the normalized amount of the input's amount. *)
Definition encodes (w : World) (o : Erc20BatchMintable.t) (arg : TokenMintInput)
    (e : string) : Prop :=
  exists n,
    normalizeAmount w (Erc20BatchMintable.erc20 o) (amount arg) = Ok n /\
    cw_encodeFunctionData w (Erc20BatchMintable.contractWrapper o) "mintTo"
      [AStr (toAddress arg); ANum (BnBig n)] = Ok e.

Definition is_multiCall (ev : Event) : bool :=
  match ev with EMultiCall _ _ => true | _ => false end.

(** The normalizations [to] asks for, one per input. *)
Definition normalize_events (o : Erc20BatchMintable.t)
    (args : list TokenMintInput) : list Event :=
  map (fun a => ENormalizeAmount (Erc20BatchMintable.erc20 o) (amount a)) args.

Definition mints : list TokenMintInput :=
  [ {| toAddress := buyer; amount := "2" |};
    {| toAddress := seller; amount := "5" |} ].

(** * Properties *)

Example BigNumber_from_dec : BigNumber_from (BnString "1500") = Ok 1500.
Proof. reflexivity. Qed.

Example BigNumber_from_hex : BigNumber_from (BnString "-0xFf") = Ok (-255).
Proof. reflexivity. Qed.

Example BigNumber_from_bad : is_ok (BigNumber_from (BnString "1.5")) = false.
Proof. reflexivity. Qed.

Example toString_big : toString (BnBig 42) = "42".
Proof. reflexivity. Qed.

Example toLowerCase_addr : toLowerCase "0xAbCd" = "0xabcd".
Proof. reflexivity. Qed.

Example BigNumber_from_empty_bytes :
  BigNumber_from (BnBytes []) = Throw (BigNumberError "invalid BigNumber string")
  /\ BigNumber_from (BnBytes [1; 2]) = Ok 258.
Proof. split; reflexivity. Qed.

Example toString_numbers :
  toString (BnNumber 1200) = "1200"
  /\ toString (BnNumber (2 ^ 64)) = "18446744073709552000"
  /\ toString (BnNumber (10 ^ 21)) = "1e+21"
  /\ toString (BnNumber (2 ^ 70)) = "1.1805916207174113e+21"
  /\ toString (BnNumber (- (15 * 10 ^ 20))) = "-1.5e+21"
  /\ toString (BnBig (10 ^ 21)) = "1000000000000000000000"
  /\ toString (BnBytes [1; 2; 255]) = "1,2,255".
Proof. repeat split; vm_compute; reflexivity. Qed.

(** An id given as an empty byte array stops every method that converts
    it, before any call. *)
Example empty_bytes_id :
  MarketplaceDirect.buyoutListing w_direct (BnBytes []) (BnNumber 1) None md0
  = mkOutcome (Throw (BigNumberError "invalid BigNumber string")) md0 []
  /\ MarketplaceDirect.getActiveOffer w_direct (BnBytes []) buyer md0
     = mkOutcome (Throw (BigNumberError "invalid BigNumber string")) md0 []
  /\ MarketplaceDirect.acceptOffer w_direct (BnBytes []) buyer md0
     = mkOutcome (Throw (BigNumberError "invalid BigNumber string")) md0 [].
Proof. repeat split; reflexivity. Qed.

Example getListing_direct7 :
  result (MarketplaceDirect.getListing w_direct (BnNumber 7) md0) = Ok direct7.
Proof. reflexivity. Qed.


(** ** The monad *)

Section MonadFacts.
Context {O : Type}.

Lemma bind_ok {A B} (m : M O A) (k : A -> M O B) o a :
  result (m o) = Ok a ->
  bind m k o =
    mkOutcome (result (k a (self (m o)))) (self (k a (self (m o))))
              (trace (m o) ++ trace (k a (self (m o)))).
Proof.
  unfold bind; destruct (m o) as [r s t]; cbn; intros ->.
  destruct (k a s); reflexivity.
Qed.

Lemma bind_throw {A B} (m : M O A) (k : A -> M O B) o e :
  result (m o) = Throw e ->
  bind m k o = mkOutcome (Throw e) (self (m o)) (trace (m o)).
Proof. unfold bind; destruct (m o) as [r s t]; cbn; intros ->; reflexivity. Qed.

Lemma try_catch_ok {A} (m : M O A) (h : JsError -> M O A) o a :
  result (m o) = Ok a -> try_catch m h o = m o.
Proof.
  unfold try_catch; destruct (m o) as [r s t]; cbn; intros ->; reflexivity.
Qed.

Lemma try_catch_throw {A} (m : M O A) (h : JsError -> M O A) o e :
  result (m o) = Throw e ->
  try_catch m h o =
    mkOutcome (result (h e (self (m o)))) (self (h e (self (m o))))
              (trace (m o) ++ trace (h e (self (m o)))).
Proof.
  unfold try_catch; destruct (m o) as [r s t]; cbn; intros ->.
  destruct (h e s); reflexivity.
Qed.

(** *** Methods that leave the fields alone *)

Lemma frame_ret {A} (a : A) : frame (ret a : M O A).
Proof. intro; reflexivity. Qed.

Lemma frame_throw {A} e : frame (throw e : M O A).
Proof. intro; reflexivity. Qed.

Lemma frame_lift {A} (r : Res A) : frame (lift r : M O A).
Proof. intro; reflexivity. Qed.

Lemma frame_call {A} ev (r : Res A) : frame (call ev r : M O A).
Proof. intro; reflexivity. Qed.

Lemma frame_this : frame (this : M O O).
Proof. intro; reflexivity. Qed.

Lemma frame_invariant c s : frame (invariant c s : M O unit).
Proof. destruct c; intro; reflexivity. Qed.

Lemma frame_bind {A B} (m : M O A) (k : A -> M O B) :
  frame m -> (forall a, frame (k a)) -> frame (bind m k).
Proof.
  intros Hm Hk o. specialize (Hm o).
  destruct (result (m o)) as [a|e] eqn:E.
  - rewrite (bind_ok _ _ _ E); cbn. rewrite Hk. exact Hm.
  - rewrite (bind_throw _ _ _ E). exact Hm.
Qed.

Lemma frame_try_catch {A} (m : M O A) (h : JsError -> M O A) :
  frame m -> (forall e, frame (h e)) -> frame (try_catch m h).
Proof.
  intros Hm Hh o. specialize (Hm o).
  destruct (result (m o)) as [a|e] eqn:E.
  - rewrite (try_catch_ok _ _ _ E). exact Hm.
  - rewrite (try_catch_throw _ _ _ E); cbn. rewrite Hh. exact Hm.
Qed.

(** The outcome of a method that leaves the fields alone. *)
Lemma frame_eta {A} (m : M O A) :
  frame m -> forall o, m o = mkOutcome (result (m o)) o (trace (m o)).
Proof. intros H o. specialize (H o). destruct (m o); cbn in *; congruence. Qed.

(** *** Methods that never emit an event of a given kind *)

Lemma quiet_ret {A} p (a : A) : quiet p (ret a : M O A).
Proof. intros o ev []. Qed.

Lemma quiet_throw {A} p e : quiet p (throw e : M O A).
Proof. intros o ev []. Qed.

Lemma quiet_lift {A} p (r : Res A) : quiet p (lift r : M O A).
Proof. intros o ev []. Qed.

Lemma quiet_this p : quiet p (this : M O O).
Proof. intros o ev []. Qed.

Lemma quiet_invariant p c s : quiet p (invariant c s : M O unit).
Proof. destruct c; intros o ev []. Qed.

Lemma quiet_call {A} p ev (r : Res A) :
  p ev = false -> quiet p (call ev r : M O A).
Proof. intros H o ev' [<-|[]]; exact H. Qed.

Lemma quiet_bind {A B} p (m : M O A) (k : A -> M O B) :
  quiet p m -> (forall a, quiet p (k a)) -> quiet p (bind m k).
Proof.
  unfold quiet; intros Hm Hk o ev.
  destruct (result (m o)) as [a|e] eqn:E.
  - rewrite (bind_ok _ _ _ E); cbn. rewrite in_app_iff; intros [H|H]; eauto.
  - rewrite (bind_throw _ _ _ E); cbn. eauto.
Qed.

Lemma quiet_try_catch {A} p (m : M O A) (h : JsError -> M O A) :
  quiet p m -> (forall e, quiet p (h e)) -> quiet p (try_catch m h).
Proof.
  unfold quiet; intros Hm Hh o ev.
  destruct (result (m o)) as [a|e] eqn:E.
  - rewrite (try_catch_ok _ _ _ E). eauto.
  - rewrite (try_catch_throw _ _ _ E); cbn.
    rewrite in_app_iff; intros [H|H]; eauto.
Qed.
End MonadFacts.

Create HintDb frame.
#[export] Hint Resolve frame_ret frame_throw frame_lift frame_call frame_this
  frame_invariant : frame.

Create HintDb quiet.
#[export] Hint Resolve quiet_ret quiet_throw quiet_lift quiet_this
  quiet_invariant : quiet.

(** Walks a method body: binds, try/catch, conditionals and matches. *)
Tactic Notation "walk" ident(db) :=
  repeat first
    [ progress auto with db
    | apply frame_bind; [|intro]
    | apply frame_try_catch; [|intro]
    | apply quiet_bind; [|intro]
    | apply quiet_try_catch; [|intro]
    | apply quiet_call; reflexivity
    | match goal with
      | |- frame (if ?b then _ else _) => destruct b
      | |- frame (match ?x with _ => _ end) => destruct x
      | |- quiet _ (if ?b then _ else _) => destruct b
      | |- quiet _ (match ?x with _ => _ end) => destruct x
      end ].

Section MarketplaceDirectFacts.
Import MarketplaceDirect.
Variable w : World.

Lemma frame_wrapper : frame wrapper.
Proof. unfold wrapper; walk frame. Qed.

Lemma frame_getProvider : frame (getProvider w).
Proof. unfold getProvider; pose proof frame_wrapper; walk frame. Qed.

Lemma frame_getAddress : frame (getAddress w).
Proof. unfold getAddress; pose proof frame_wrapper; walk frame. Qed.

#[local] Hint Resolve frame_wrapper frame_getProvider frame_getAddress : frame.

Lemma frame_console_error s e : frame (console_error s e).
Proof. unfold console_error; walk frame. Qed.
#[local] Hint Resolve frame_console_error : frame.

Lemma frame_mapListing l : frame (mapListing w l).
Proof. unfold mapListing; walk frame. Qed.
#[local] Hint Resolve frame_mapListing : frame.

Lemma frame_getListing i : frame (getListing w i).
Proof. unfold getListing; walk frame. Qed.
#[local] Hint Resolve frame_getListing : frame.

Lemma frame_validateListing n : frame (validateListing w n).
Proof. unfold validateListing; walk frame. Qed.
#[local] Hint Resolve frame_validateListing : frame.

Lemma frame_getActiveOffer i a : frame (getActiveOffer w i a).
Proof. unfold getActiveOffer; walk frame. Qed.

Lemma frame_isStillValidListing l q : frame (isStillValidListing w l q).
Proof. unfold isStillValidListing; walk frame. Qed.
#[local] Hint Resolve frame_isStillValidListing : frame.

Lemma frame_createListing l : frame (createListing w l).
Proof. unfold createListing; walk frame. Qed.

Lemma frame_getCallOverrides : frame (getCallOverrides w).
Proof. unfold getCallOverrides; walk frame. Qed.

Lemma frame_allowance v c ov : frame (allowance w v c ov).
Proof. unfold allowance; walk frame. Qed.

Lemma frame_sendTransaction f a ov : frame (sendTransaction w f a ov).
Proof. unfold sendTransaction; walk frame. Qed.
#[local] Hint Resolve frame_getCallOverrides frame_allowance frame_sendTransaction : frame.

Lemma frame_makeOffer i q c p e : frame (makeOffer w i q c p e).
Proof. unfold makeOffer; walk frame. Qed.

Lemma frame_acceptOffer i a : frame (acceptOffer w i a).
Proof. unfold acceptOffer; walk frame. Qed.

Lemma frame_buyoutListing i q r : frame (buyoutListing w i q r).
Proof. unfold buyoutListing; walk frame. Qed.

Lemma frame_updateListing l : frame (updateListing w l).
Proof. unfold updateListing; walk frame. Qed.

Lemma frame_cancelListing i : frame (cancelListing w i).
Proof. unfold cancelListing; walk frame. Qed.
End MarketplaceDirectFacts.

(** Unfolds the monad; [step] then splits on the next answer a
    collaborator or a library function gives. *)
Ltac run :=
  unfold bind, try_catch, call, lift, ret, throw, this, invariant; cbn.

Ltac step :=
  match goal with
  | |- context [match ?r with Ok _ => _ | Throw _ => _ end] =>
      let E := fresh "E" in destruct r eqn:E; cbn
  end.

Section GetListing.
Import MarketplaceDirect.
Variable w : World.

(** What one call of [getListing] does, case by case. *)
Lemma getListing_run i o :
  getListing w i o =
  let c := contractWrapper o in
  match cw_listings w c i with
  | Ok l =>
      if String.eqb (ls_assetContract l) AddressZero then
        mkOutcome (Throw (ListingNotFoundError (cw_address w c) (toString i)))
                  o [EListings c i]
      else if negb (strict_eq_number (ls_listingType l) (ListingType_value Direct))
      then
        mkOutcome
          (Throw (WrongListingTypeError (cw_address w c) (toString i)
                    "Auction" "Direct"))
          o [EListings c i]
      else
        let r := mapListing w l o in
        mkOutcome (result r) (self r) (EListings c i :: trace r)
  | Throw e => mkOutcome (Throw e) o [EListings c i]
  end.
Proof.
  unfold getListing, getAddress, wrapper; run.
  destruct (cw_listings w (contractWrapper o) i) as [l|e]; cbn; [|reflexivity].
  destruct (String.eqb (ls_assetContract l) AddressZero); cbn; [reflexivity|].
  destruct (negb _); cbn; [reflexivity|].
  destruct (mapListing w l o); reflexivity.
Qed.

(** [getListing] returns only listings that are present and direct. *)
Lemma getListing_ok i o d :
  result (getListing w i o) = Ok d ->
  exists l,
    cw_listings w (contractWrapper o) i = Ok l /\
    ls_assetContract l <> AddressZero /\
    strict_eq_number (ls_listingType l) (ListingType_value Direct) = true /\
    result (mapListing w l o) = Ok d.
Proof.
  rewrite getListing_run; cbn.
  destruct (cw_listings w (contractWrapper o) i) as [l|e]; cbn; [|discriminate].
  destruct (String.eqb (ls_assetContract l) AddressZero) eqn:Ez; cbn;
    [discriminate|].
  destruct (strict_eq_number _ _) eqn:Et; cbn; [|discriminate].
  intro H; exists l; repeat split; auto.
  intro Hz; apply String.eqb_neq in Ez; contradiction.
Qed.

(** [validateListing] rethrows what [getListing] threw and returns what
    it returned. *)
Lemma validateListing_result n o :
  result (validateListing w n o) = result (getListing w (BnBig n) o).
Proof.
  unfold validateListing.
  destruct (result (getListing w (BnBig n) o)) eqn:E.
  - rewrite (try_catch_ok _ _ _ E). exact E.
  - rewrite (try_catch_throw _ _ _ E). reflexivity.
Qed.

Lemma quiet_mapListing_write l : quiet is_write (mapListing w l).
Proof. unfold mapListing, getProvider, wrapper; walk quiet. Qed.

Lemma quiet_getListing_write i : quiet is_write (getListing w i).
Proof.
  pose proof quiet_mapListing_write.
  unfold getListing, getAddress, wrapper; walk quiet.
Qed.

Lemma quiet_validateListing_write n : quiet is_write (validateListing w n).
Proof.
  pose proof quiet_getListing_write.
  unfold validateListing, console_error; walk quiet.
Qed.

Lemma quiet_isStillValidListing_write l q :
  quiet is_write (isStillValidListing w l q).
Proof.
  unfold isStillValidListing, getProvider, getAddress, wrapper, console_error.
  walk quiet.
Qed.

Lemma quiet_mapListing_offers l : quiet is_offers_read (mapListing w l).
Proof. unfold mapListing, getProvider, wrapper; walk quiet. Qed.

Lemma quiet_getListing_offers i : quiet is_offers_read (getListing w i).
Proof.
  pose proof quiet_mapListing_offers.
  unfold getListing, getAddress, wrapper; walk quiet.
Qed.

Lemma quiet_validateListing_offers n :
  quiet is_offers_read (validateListing w n).
Proof.
  pose proof quiet_getListing_offers.
  unfold validateListing, console_error; walk quiet.
Qed.
End GetListing.

(** C6: given the listing [l] the contract returns for the id, and with
    the two guards read in the order the code makes them, [getListing]
    throws [ListingNotFoundError] when [l.assetContract] is the zero
    address; failing that, throws [WrongListingTypeError] when
    [l.listingType] is not Direct; and otherwise ends as [mapListing l]
    does, after the one read.  A returned listing always comes from
    [mapListing] on a listing that is present and Direct, so no mapped
    result is returned in either error case. *)
Theorem getListing_spec (w : World) (i : BigNumberish) (o : MarketplaceDirect.t)
    (l : ListingStruct) :
  cw_listings w (MarketplaceDirect.contractWrapper o) i = Ok l ->
  let c := MarketplaceDirect.contractWrapper o in
  let direct := strict_eq_number (ls_listingType l) (ListingType_value Direct) in
  let r := MarketplaceDirect.getListing w i o in
  (ls_assetContract l = AddressZero ->
   result r = Throw (ListingNotFoundError (cw_address w c) (toString i)) /\
   trace r = [EListings c i])
  /\
  (ls_assetContract l <> AddressZero -> direct = false ->
   result r = Throw (WrongListingTypeError (cw_address w c) (toString i)
                       "Auction" "Direct") /\
   trace r = [EListings c i])
  /\
  (ls_assetContract l <> AddressZero -> direct = true ->
   result r = result (MarketplaceDirect.mapListing w l o) /\
   trace r = EListings c i :: trace (MarketplaceDirect.mapListing w l o))
  /\
  (forall d, result r = Ok d ->
     ls_assetContract l <> AddressZero /\ direct = true /\
     result (MarketplaceDirect.mapListing w l o) = Ok d).
Proof.
  intros Hl c direct r.
  assert (H4 : forall d, result r = Ok d ->
            ls_assetContract l <> AddressZero /\ direct = true /\
            result (MarketplaceDirect.mapListing w l o) = Ok d).
  { intros d H. destruct (getListing_ok w i o H) as (l' & E & Hz & Ht & Hm).
    rewrite Hl in E; injection E as <-. auto. }
  subst r direct c. revert H4.
  rewrite getListing_run; cbn zeta; rewrite Hl. intro H4.
  split; [|split; [|split]]; auto.
  - intros H%String.eqb_eq. rewrite H. auto.
  - intros H%String.eqb_neq Hd. rewrite H, Hd. auto.
  - intros H%String.eqb_neq Hd. rewrite H, Hd. auto.
Qed.

(** C6, witness: listing 7 of the sample marketplace is returned mapped. *)
Lemma getListing_spec_witness :
  result (MarketplaceDirect.getListing w_direct (BnNumber 7) md0) = Ok direct7.
Proof.
  destruct (getListing_spec w_direct (BnNumber 7) md0 (l := listing7 asset_addr 0)
              eq_refl) as (_ & _ & H & _).
  destruct H as [H _]; [discriminate|reflexivity|].
  rewrite H. reflexivity.
Defined.

(** The zero-address guard comes first: a slot with no asset contract is
    reported as not found whatever its type. *)
Example getListing_zero_address_first :
  result (MarketplaceDirect.getListing w_zero_auction (BnNumber 7) md0)
  = Throw (ListingNotFoundError market "7").
Proof. reflexivity. Qed.

(** ** isStillValidListing *)

Section StillValid.
Import MarketplaceDirect.
Variable w : World.

Lemma isStillValidListing_true o l q :
  result (isStillValidListing w l q o) = Ok true <-> still_valid w o l q.
Proof.
  unfold still_valid, isStillValidListing, getProvider, getAddress, wrapper,
    console_error; run.
  repeat first
    [ step
    | match goal with
      | |- context [negb ?b] => is_var b; destruct b; cbn
      | |- context [if ?b then _ else _] => is_var b; destruct b; cbn
      end ].
  all: split;
    [ intro H; try discriminate H
    | intros (Ha & b1 & b2 & H1 & H2 & H3); try discriminate Ha;
      try discriminate H1; try discriminate H2;
      injection H1 as <-; injection H2 as <-; cbn in H3 ].
  all: try (destruct H3 as (? & ? & ?); discriminate).
  all: try (destruct H3 as (? & ? & ? & ? & ? & ?); discriminate).
  all: match goal with
       | H : Ok (String.eqb _ _) = Ok true |- _ =>
           injection H as H; apply String.eqb_eq in H;
           split; [reflexivity|]; exists true; eexists;
           split; [reflexivity|]; split; [reflexivity|];
           eexists; split; [reflexivity|exact H]
       | H : Ok (Z.leb _ _) = Ok true |- _ =>
           injection H as H; apply Z.leb_le in H;
           split; [reflexivity|]; exists false; exists true;
           split; [reflexivity|]; split; [reflexivity|];
           split; [reflexivity|]; do 2 eexists;
           split; [reflexivity|]; split; [reflexivity|exact H]
       | H3 : exists owner, Ok _ = Ok owner /\ _ |- _ =>
           destruct H3 as (ow & Ho & Hl); injection Ho as <-;
           f_equal; apply String.eqb_eq; exact Hl
       | H3 : _ /\ exists balance n, _ |- _ =>
           destruct H3 as (_ & bal & n & Hb & Hn & Hle);
           injection Hb as <-; injection Hn as <-;
           f_equal; apply Z.leb_le; exact Hle
       end.
Qed.
End StillValid.

(** C1, counterexample: the condition as written holds and the method
    answers [false], (1) for an asset contract that answers to both
    interface ids, where only the ERC721 owner test is made, and (2) for
    the quantity argument [0], which is falsy, so that the balance is
    compared with [listing.quantity]. *)
Lemma isStillValidListing_as_written_fails :
  ~ (result (MarketplaceDirect.isStillValidListing w_both direct7
               (Some (BnNumber 1)) md0) = Ok true
     <-> still_valid_as_written w_both md0 direct7 (Some (BnNumber 1)))
  /\
  ~ (result (MarketplaceDirect.isStillValidListing w_1155_empty direct7
               (Some (BnNumber 0)) md0) = Ok true
     <-> still_valid_as_written w_1155_empty md0 direct7 (Some (BnNumber 0))).
Proof.
  split; intros [_ H].
  - assert (Hw : still_valid_as_written w_both md0 direct7 (Some (BnNumber 1))).
    { split; [reflexivity|]. right. split; [reflexivity|].
      exists 3, 1. split; [reflexivity|]. split; [reflexivity|lia]. }
    specialize (H Hw). vm_compute in H. discriminate H.
  - assert (Hw : still_valid_as_written w_1155_empty md0 direct7
                   (Some (BnNumber 0))).
    { split; [reflexivity|]. right. split; [reflexivity|].
      exists 0, 0. split; [reflexivity|]. split; [reflexivity|lia]. }
    specialize (H Hw). vm_compute in H. discriminate H.
Qed.

(** C1 (amended): [isStillValidListing] returns [true] exactly when the
    marketplace is approved for the seller's token, both interface
    queries answer, and either the asset supports ERC721 and
    [ownerOf(tokenId)] equals the seller's address in lower case, or it
    does not support ERC721, supports ERC1155, and the seller's balance is
    at least the quantity argument when that is supplied and truthy, and
    at least [listing.quantity] otherwise.  Without approval, or with
    neither interface supported, it returns [false]. *)
Theorem isStillValidListing_spec (w : World) (o : MarketplaceDirect.t)
    (l : DirectListing) (q : option BigNumberish) :
  let p := cw_getProvider w (MarketplaceDirect.contractWrapper o) in
  let m := cw_address w (MarketplaceDirect.contractWrapper o) in
  let a := dl_assetContractAddress l in
  let approved :=
    isTokenApprovedForMarketplace w p m a (dl_tokenId l) (dl_sellerAddress l) in
  let r := MarketplaceDirect.isStillValidListing w l q o in
  (result r = Ok true <-> still_valid w o l q)
  /\ (approved = Ok false -> result r = Ok false)
  /\ (approved = Ok true ->
      supportsInterface w a p InterfaceId_IERC721 = Ok false ->
      supportsInterface w a p InterfaceId_IERC1155 = Ok false ->
      result r = Ok false).
Proof.
  intros p m a approved r. split; [apply isStillValidListing_true|].
  subst r approved a m p.
  unfold MarketplaceDirect.isStillValidListing, MarketplaceDirect.getProvider,
    MarketplaceDirect.getAddress, MarketplaceDirect.wrapper,
    MarketplaceDirect.console_error; run.
  split.
  - intros ->. reflexivity.
  - intros H1 H2 H3. rewrite H1; cbn. rewrite H2; cbn. rewrite H3. reflexivity.
Qed.

Example isStillValidListing_owner_checksum :
  result (MarketplaceDirect.isStillValidListing
            (world_of (scenario (listing7 asset_addr 0) true false seller_checksum 0))
            direct7 None md0) = Ok true.
Proof. reflexivity. Qed.

Example isStillValidListing_1155_default_quantity :
  result (MarketplaceDirect.isStillValidListing w_1155 direct7 None md0) = Ok true
  /\ result (MarketplaceDirect.isStillValidListing w_1155 direct7
               (Some (BnString "4")) md0) = Ok false.
Proof. split; reflexivity. Qed.

(** ** getActiveOffer *)

(** C10, counterexample: listing 7 exists as an auction and holds no offer
    of the buyer, so the stored offer has the zero address as offeror;
    [getActiveOffer] throws [WrongListingTypeError] from [validateListing].
    For an id that holds no listing it throws [ListingNotFoundError]. *)
Lemma getActiveOffer_as_written_fails :
  ~ getActiveOffer_as_written w_auction (BnNumber 7) buyer md0
  /\ ~ getActiveOffer_as_written w_missing (BnNumber 7) buyer md0.
Proof.
  split; intro H; specialize (H no_offer eq_refl eq_refl);
    vm_compute in H; discriminate H.
Qed.

(** C10 (amended): when the listing id converts, [getListing] returns for
    it, and the address is syntactically valid, [getActiveOffer] returns
    [undefined] if the stored offer has the zero address as offeror; and
    for every address that is not syntactically valid it throws and reads
    no offer from the contract. *)
Theorem getActiveOffer_spec (w : World) (i : BigNumberish) (a : string)
    (o : MarketplaceDirect.t) :
  let r := MarketplaceDirect.getActiveOffer w i a o in
  (forall n d os,
     BigNumber_from i = Ok n ->
     result (MarketplaceDirect.getListing w (BnBig n) o) = Ok d ->
     isAddress w a = true ->
     cw_offers w (MarketplaceDirect.contractWrapper o) i a = Ok os ->
     os_offeror os = AddressZero ->
     result r = Ok None)
  /\
  (isAddress w a = false ->
   (exists e, result r = Throw e) /\
   (forall ev, In ev (trace r) -> is_offers_read ev = false)).
Proof.
  intro r; subst r; split.
  - intros n d os Hn Hd Ha Ho Hz.
    unfold MarketplaceDirect.getActiveOffer, MarketplaceDirect.wrapper; run.
    rewrite Hn; cbn.
    rewrite (frame_eta (frame_validateListing w n) o); cbn.
    rewrite validateListing_result, Hd; cbn.
    rewrite Ha; cbn. rewrite Ho; cbn.
    apply String.eqb_eq in Hz. rewrite Hz. reflexivity.
  - intro Ha.
    unfold MarketplaceDirect.getActiveOffer, MarketplaceDirect.wrapper; run.
    destruct (BigNumber_from i) as [n|e]; cbn.
    + pose proof (quiet_validateListing_offers w n o) as Hq.
      rewrite (frame_eta (frame_validateListing w n) o); cbn.
      destruct (result (MarketplaceDirect.validateListing w n o)) as [d|e]; cbn.
      * rewrite Ha; cbn. split; [eauto|].
        intros ev Hin. rewrite !app_nil_r in Hin. auto.
      * split; [eauto|]. exact Hq.
    + split; [eauto|]. intros ev [].
Qed.

Example getActiveOffer_none :
  MarketplaceDirect.getActiveOffer w_direct (BnNumber 7) buyer md0
  = mkOutcome (Ok None) md0
      [EListings 1%nat (BnBig 7);
       EFetchCurrencyValue 101%nat token_addr (BnBig 2000000000000000000);
       EFetchTokenMetadata asset_addr 101%nat (BnBig 5) 2%nat;
       EOffers 1%nat (BnNumber 7) buyer].
Proof. reflexivity. Qed.

Example getActiveOffer_bad_address :
  MarketplaceDirect.getActiveOffer w_direct (BnNumber 7) "not an address" md0
  = mkOutcome (Throw (InvariantError "Address must be a valid address")) md0
      [EListings 1%nat (BnBig 7);
       EFetchCurrencyValue 101%nat token_addr (BnBig 2000000000000000000);
       EFetchTokenMetadata asset_addr 101%nat (BnBig 5) 2%nat].
Proof. reflexivity. Qed.

(** ** buyoutListing *)

Section BuyoutListing.
Import MarketplaceDirect.
Variable w : World.

(** Every event of [buyoutListing] is either a read, or the allowance
    or the [buy] transaction for a listing that was found, is direct
    and is still valid, with the total price [buyoutPrice * quantity]. *)
Lemma buyoutListing_events i q rcv o ev :
  In ev (trace (buyoutListing w i q rcv o)) ->
  is_write ev = false \/
  exists n d p qn,
    BigNumber_from i = Ok n /\
    result (getListing w (BnBig n) o) = Ok d /\
    result (isStillValidListing w d (Some q) o) = Ok true /\
    BigNumber_from q = Ok qn /\
    BigNumber_from (dl_buyoutPrice d) = Ok p /\
    ((exists ov,
        ev = ESetErc20Allowance (contractWrapper o) (p * qn)
               (dl_currencyContractAddress d) ov)
     \/
     (exists buyFor ov,
        ev = ESendTransaction (contractWrapper o) "buy"
               [ANum i; AStr buyFor; ANum (BnBig qn);
                AStr (dl_currencyContractAddress d); ANum (BnBig (p * qn))]
               (Some ov))).
Proof.
  unfold buyoutListing, getCallOverrides, allowance, sendTransaction, wrapper;
    run.
  destruct (BigNumber_from i) as [n|e] eqn:En; cbn; [|intros []].
  pose proof (quiet_validateListing_write w n o) as Hv.
  pose proof (eq_sym (validateListing_result w n o)) as Hr.
  rewrite (frame_eta (frame_validateListing w n) o); cbn.
  destruct (result (validateListing w n o)) as [d|e] eqn:Ed; cbn;
    [|intro H; left; auto].
  pose proof (quiet_isStillValidListing_write w d (Some q) o) as Hs.
  rewrite (frame_eta (frame_isStillValidListing w d (Some q)) o); cbn.
  destruct (result (isStillValidListing w d (Some q) o)) as [[|]|e] eqn:Es; cbn.
  2, 3: rewrite ?app_nil_r, ?in_app_iff; intros [H|H]; left; auto.
  repeat first
    [ step
    | match goal with
      | |- context [match ?x with Some _ => _ | None => _ end] =>
          destruct x; cbn
      | |- context [if ?b then _ else _] => destruct b; cbn
      end ].
  all: rewrite ?in_app_iff; intros [H|[H|H]]; [left; auto|left; auto|].
  all: cbn in H;
    repeat (destruct H as [<-|H];
            [first
               [ left; reflexivity
               | right; do 4 eexists; repeat (split; [first [eassumption|reflexivity]|]);
                 first [ left; eexists; reflexivity
                       | right; do 2 eexists; reflexivity ] ]|]);
    contradiction.
Qed.
End BuyoutListing.

(** ** makeOffer *)

Section MakeOffer.
Import MarketplaceDirect.
Variable w : World.

(** Every event of [makeOffer] is either a read, or the allowance or
    the [offer] transaction, made for a non-native currency and a
    listing [getListing] returned, with the normalized price. *)
Lemma makeOffer_events i q cur price exp o ev :
  In ev (trace (makeOffer w i q cur price exp o)) ->
  is_write ev = false \/
  exists np d qn,
    isNativeToken w cur = false /\
    normalizePriceValue w (cw_getProvider w (contractWrapper o)) price cur
    = Ok np /\
    result (getListing w i o) = Ok d /\
    BigNumber_from q = Ok qn /\
    ((exists ov, ev = ESetErc20Allowance (contractWrapper o) (np * qn) cur ov)
     \/
     (exists e ov,
        ev = ESendTransaction (contractWrapper o) "offer"
               [ANum i; ANum q; AStr cur; ANum (BnBig np); ANum (BnBig e)]
               (Some ov))).
Proof.
  unfold makeOffer, getProvider, getCallOverrides, allowance, sendTransaction,
    wrapper, console_error; run.
  destruct (isNativeToken w cur) eqn:En; cbn; [intros []|].
  step; [|intros [<-|[]]; left; reflexivity].
  pose proof (quiet_getListing_write w i o) as Hg.
  rewrite (frame_eta (frame_getListing w i) o); cbn.
  destruct (result (getListing w i o)) as [d|e] eqn:Ed; cbn.
  2: { rewrite in_app_iff; cbn. intros [<-|[H|[<-|[]]]]; left; auto. }
  repeat first
    [ step
    | match goal with
      | |- context [match ?x with Some _ => _ | None => _ end] =>
          destruct x; cbn
      end ].
  all: intros [<-|H]; [left; reflexivity|];
    rewrite in_app_iff in H; destruct H as [H|H]; [left; auto|]; cbn in H;
    repeat (destruct H as [<-|H];
            [first
               [ left; reflexivity
               | right; do 3 eexists;
                 repeat (split; [first [eassumption|reflexivity]|]);
                 first [ left; eexists; reflexivity
                       | right; do 2 eexists; reflexivity ] ]|]);
    contradiction.
Qed.

(** With a native currency nothing happens but the throw. *)
Lemma makeOffer_native i q cur price exp o :
  isNativeToken w cur = true ->
  makeOffer w i q cur price exp o = mkOutcome (Throw (Error msg_native_offer)) o [].
Proof. unfold makeOffer; intros ->; reflexivity. Qed.

(** The run of [makeOffer] once every step before the transaction has
    answered. *)
Lemma makeOffer_submits i q cur price exp o np d qn ovo ov e :
  isNativeToken w cur = false ->
  normalizePriceValue w (cw_getProvider w (contractWrapper o)) price cur = Ok np ->
  result (getListing w i o) = Ok d ->
  BigNumber_from q = Ok qn ->
  cw_getCallOverrides w (contractWrapper o) = Ok ovo ->
  setErc20Allowance w (contractWrapper o) (np * qn) cur
    (match ovo with Some v => v | None => [] end) = Ok ov ->
  expirationTimestamp_of exp = Ok e ->
  let c := contractWrapper o in
  let args := [ANum i; ANum q; AStr cur; ANum (BnBig np); ANum (BnBig e)] in
  makeOffer w i q cur price exp o =
  mkOutcome
    (match cw_sendTransaction w c "offer" args (Some ov) with
     | Ok r => Ok {| receipt := r |}
     | Throw x => Throw x
     end)
    o
    (ENormalizePriceValue (cw_getProvider w c) price cur
     :: trace (getListing w i o)
     ++ [EGetCallOverrides c;
         ESetErc20Allowance c (np * qn) cur
           (match ovo with Some v => v | None => [] end);
         ESendTransaction c "offer" args (Some ov)]).
Proof.
  intros Hn Hp Hd Hq Ho Ha He c args; subst c args.
  unfold makeOffer, getProvider, getCallOverrides, allowance, sendTransaction,
    wrapper, console_error; run.
  rewrite Hn, Hp; cbn.
  rewrite (frame_eta (frame_getListing w i) o); cbn. rewrite Hd; cbn.
  rewrite Hq; cbn. rewrite Ho; cbn. rewrite Ha; cbn. rewrite He; cbn.
  destruct (cw_sendTransaction _ _ _ _ _); reflexivity.
Qed.
End MakeOffer.


(** C4: when [isStillValidListing] answers [false] for the listing that
    [validateListing] returned, [buyoutListing] throws and emits no
    transaction or allowance at all; and any transaction it sends is the
    [buy] of a listing that was found, is Direct, and for which
    [isStillValidListing] answered [true]. *)
Theorem buyoutListing_guard (w : World) (i q : BigNumberish)
    (rcv : option string) (o : MarketplaceDirect.t) :
  let r := MarketplaceDirect.buyoutListing w i q rcv o in
  (forall n d,
     BigNumber_from i = Ok n ->
     result (MarketplaceDirect.getListing w (BnBig n) o) = Ok d ->
     result (MarketplaceDirect.isStillValidListing w d (Some q) o) = Ok false ->
     result r = Throw (Error MarketplaceDirect.msg_moved) /\
     (forall ev, In ev (trace r) -> is_write ev = false))
  /\
  (forall c fn args ov,
     In (ESendTransaction c fn args ov) (trace r) ->
     fn = "buy" /\
     exists n l d,
       BigNumber_from i = Ok n /\
       cw_listings w (MarketplaceDirect.contractWrapper o) (BnBig n) = Ok l /\
       ls_assetContract l <> AddressZero /\
       strict_eq_number (ls_listingType l) (ListingType_value Direct) = true /\
       result (MarketplaceDirect.getListing w (BnBig n) o) = Ok d /\
       result (MarketplaceDirect.isStillValidListing w d (Some q) o) = Ok true).
Proof.
  intro r; subst r; split.
  - intros n d Hn Hd Hs.
    pose proof (quiet_validateListing_write w n o) as Qv.
    pose proof (quiet_isStillValidListing_write w d (Some q) o) as Qs.
    unfold MarketplaceDirect.buyoutListing; run. rewrite Hn; cbn.
    rewrite (frame_eta (frame_validateListing w n) o); cbn.
    rewrite validateListing_result, Hd; cbn.
    rewrite (frame_eta (frame_isStillValidListing w d (Some q)) o); cbn.
    rewrite Hs; cbn. split; [reflexivity|].
    intros ev. rewrite app_nil_r, in_app_iff. intros [H|H]; auto.
  - intros c fn args ov Hin.
    destruct (buyoutListing_events w i q rcv o _ Hin)
      as [Hw|(n & d & p & qn & Hn & Hd & Hs & _ & _ & [(x & E)|(b & x & E)])];
      try discriminate.
    injection E as -> -> -> ->. split; [reflexivity|].
    destruct (getListing_ok w _ o Hd) as (l & Hl & Hz & Ht & _).
    exists n, l, d. auto 10.
Qed.

Example buyoutListing_moved :
  MarketplaceDirect.buyoutListing
    (world_of (scenario (listing7 asset_addr 0) true false buyer 0))
    (BnNumber 7) (BnNumber 1) None md0
  = mkOutcome (Throw (Error MarketplaceDirect.msg_moved)) md0
      [EListings 1%nat (BnBig 7);
       EFetchCurrencyValue 101%nat token_addr (BnBig 2000000000000000000);
       EFetchTokenMetadata asset_addr 101%nat (BnBig 5) 2%nat;
       EIsTokenApproved 101%nat market asset_addr (BnBig 5) seller;
       ESupportsInterface asset_addr 101%nat InterfaceId_IERC721;
       ESupportsInterface asset_addr 101%nat InterfaceId_IERC1155;
       EOwnerOf asset_addr 101%nat (BnBig 5)].
Proof. reflexivity. Qed.

Example buyoutListing_buys :
  MarketplaceDirect.buyoutListing w_1155 (BnNumber 7) (BnString "3") None md0
  = mkOutcome (Ok {| receipt := txReceipt 1 |}) md0
      [EListings 1%nat (BnBig 7);
       EFetchCurrencyValue 101%nat token_addr (BnBig 2000000000000000000);
       EFetchTokenMetadata asset_addr 101%nat (BnBig 5) 2%nat;
       EIsTokenApproved 101%nat market asset_addr (BnBig 5) seller;
       ESupportsInterface asset_addr 101%nat InterfaceId_IERC721;
       ESupportsInterface asset_addr 101%nat InterfaceId_IERC1155;
       EBalanceOf asset_addr 101%nat seller (BnBig 5);
       EGetSignerAddress 1%nat;
       EGetCallOverrides 1%nat;
       ESetErc20Allowance 1%nat 6000000000000000000 token_addr [];
       ESendTransaction 1%nat "buy"
         [ANum (BnNumber 7); AStr buyer; ANum (BnBig 3); AStr token_addr;
          ANum (BnBig 6000000000000000000)] (Some [])].
Proof. reflexivity. Qed.

(** C5, counterexample: listing 7 exists as an auction; with an ERC20
    currency [makeOffer] throws after [getListing] rejected the listing
    type, and submits nothing. *)
Lemma makeOffer_as_written_fails :
  ~ makeOffer_as_written w_auction (BnNumber 7) (BnNumber 2) token_addr "3" None md0.
Proof.
  intro H. destruct H as (c & args & ov & Hin).
  - reflexivity.
  - exists (listing7 asset_addr 1). split; [reflexivity|discriminate].
  - vm_compute in Hin.
    repeat (destruct Hin as [Hin|Hin]; [discriminate Hin|]). exact Hin.
Qed.

(** C5 (amended): with a native currency [makeOffer] throws at once, before
    any price normalization, allowance or transaction (it emits no
    event); with another currency, once the price is normalized,
    [getListing] has returned the listing (it exists and is Direct), the
    quantity and expiration convert and the allowance is set, it submits
    the [offer] transaction with the normalized price per token. *)
Theorem makeOffer_spec (w : World) (i q : BigNumberish) (cur : string)
    (price : Price) (exp : option Date) (o : MarketplaceDirect.t) :
  let c := MarketplaceDirect.contractWrapper o in
  let r := MarketplaceDirect.makeOffer w i q cur price exp o in
  (isNativeToken w cur = true ->
   r = mkOutcome (Throw (Error MarketplaceDirect.msg_native_offer)) o [])
  /\
  (forall np d qn ovo ov e,
     isNativeToken w cur = false ->
     normalizePriceValue w (cw_getProvider w c) price cur = Ok np ->
     result (MarketplaceDirect.getListing w i o) = Ok d ->
     BigNumber_from q = Ok qn ->
     cw_getCallOverrides w c = Ok ovo ->
     setErc20Allowance w c (np * qn) cur
       (match ovo with Some v => v | None => [] end) = Ok ov ->
     MarketplaceDirect.expirationTimestamp_of exp = Ok e ->
     In (ESendTransaction c "offer"
           [ANum i; ANum q; AStr cur; ANum (BnBig np); ANum (BnBig e)] (Some ov))
        (trace r) /\
     (forall x, result r = Ok x ->
        cw_sendTransaction w c "offer"
          [ANum i; ANum q; AStr cur; ANum (BnBig np); ANum (BnBig e)] (Some ov)
        = Ok (receipt x))).
Proof.
  intros c r; subst c r; split.
  - apply makeOffer_native.
  - intros np d qn ovo ov e Hn Hp Hd Hq Ho Ha He.
    rewrite (makeOffer_submits w i q cur price exp o Hn Hp Hd Hq Ho Ha He); cbn.
    split.
    + right. rewrite in_app_iff. right. cbn. auto.
    + intros x. destruct (cw_sendTransaction _ _ _ _ _); [|discriminate].
      intro E; injection E as <-. reflexivity.
Qed.

Example makeOffer_native_run :
  MarketplaceDirect.makeOffer w_direct (BnNumber 7) (BnNumber 2)
    NATIVE_TOKEN_ADDRESS "3" None md0
  = mkOutcome (Throw (Error MarketplaceDirect.msg_native_offer)) md0 [].
Proof. reflexivity. Qed.

Example makeOffer_run :
  MarketplaceDirect.makeOffer w_direct (BnNumber 7) (BnNumber 2) token_addr "3"
    (Some 1700000500123) md0
  = mkOutcome (Ok {| receipt := txReceipt 1 |}) md0
      [ENormalizePriceValue 101%nat "3" token_addr;
       EListings 1%nat (BnNumber 7);
       EFetchCurrencyValue 101%nat token_addr (BnBig 2000000000000000000);
       EFetchTokenMetadata asset_addr 101%nat (BnBig 5) 2%nat;
       EGetCallOverrides 1%nat;
       ESetErc20Allowance 1%nat 6000000000000000000 token_addr [];
       ESendTransaction 1%nat "offer"
         [ANum (BnNumber 7); ANum (BnNumber 2); AStr token_addr;
          ANum (BnBig 3000000000000000000); ANum (BnBig 1700000500)] (Some [])].
Proof. reflexivity. Qed.

Section TotalValue.
Import MarketplaceDirect.
Variable w : World.

(** [makeOffer] asks for the allowance of the total once the price is
    normalized, the listing read and the quantity converted. *)
Lemma makeOffer_sets_allowance i q cur price exp o np d qn ovo :
  isNativeToken w cur = false ->
  normalizePriceValue w (cw_getProvider w (contractWrapper o)) price cur = Ok np ->
  result (getListing w i o) = Ok d ->
  BigNumber_from q = Ok qn ->
  cw_getCallOverrides w (contractWrapper o) = Ok ovo ->
  In (ESetErc20Allowance (contractWrapper o) (np * qn) cur
        (match ovo with Some v => v | None => [] end))
     (trace (makeOffer w i q cur price exp o)).
Proof.
  intros Hn Hp Hd Hq Ho.
  unfold makeOffer, getProvider, getCallOverrides, allowance, sendTransaction,
    wrapper, console_error; run.
  rewrite Hn, Hp; cbn.
  rewrite (frame_eta (frame_getListing w i) o); cbn. rewrite Hd; cbn.
  rewrite Hq; cbn. rewrite Ho; cbn.
  repeat step; right; rewrite in_app_iff; right; cbn; auto.
Qed.

(** [buyoutListing] asks for the allowance of the total once the listing
    is validated and still valid, and then sends [buy] with it. *)
Lemma buyoutListing_sets_allowance i q rcv o n d buyFor qn p ovo :
  BigNumber_from i = Ok n ->
  result (getListing w (BnBig n) o) = Ok d ->
  result (isStillValidListing w d (Some q) o) = Ok true ->
  match rcv with
  | Some r => if String.eqb r "" then cw_getSignerAddress w (contractWrapper o)
              else Ok r
  | None => cw_getSignerAddress w (contractWrapper o)
  end = Ok buyFor ->
  BigNumber_from q = Ok qn ->
  BigNumber_from (dl_buyoutPrice d) = Ok p ->
  cw_getCallOverrides w (contractWrapper o) = Ok ovo ->
  let c := contractWrapper o in
  let r := buyoutListing w i q rcv o in
  let ov0 := match ovo with Some v => v | None => [] end in
  In (ESetErc20Allowance c (p * qn) (dl_currencyContractAddress d) ov0) (trace r)
  /\
  (forall ov,
     setErc20Allowance w c (p * qn) (dl_currencyContractAddress d) ov0 = Ok ov ->
     In (ESendTransaction c "buy"
           [ANum i; AStr buyFor; ANum (BnBig qn);
            AStr (dl_currencyContractAddress d); ANum (BnBig (p * qn))]
           (Some ov))
        (trace r)).
Proof.
  intros Hn Hd Hs Hb Hq Hp Ho c r ov0; subst c r ov0.
  unfold buyoutListing, getCallOverrides, allowance, sendTransaction, wrapper;
    run.
  rewrite Hn; cbn.
  rewrite (frame_eta (frame_validateListing w n) o); cbn.
  rewrite validateListing_result, Hd; cbn.
  rewrite (frame_eta (frame_isStillValidListing w d (Some q)) o); cbn.
  rewrite Hs; cbn.
  destruct rcv as [r|]; [destruct (String.eqb r "")|]; cbn;
    try (injection Hb as ->); try rewrite Hb; cbn;
    rewrite Hq; cbn; rewrite Hp; cbn; rewrite Ho; cbn;
    (split; [|intros ov Ha; rewrite Ha; cbn]);
    repeat step; rewrite !in_app_iff; cbn; auto 10.
Qed.
End TotalValue.

(** C7: in [makeOffer] the value given to [setErc20Allowance] is the
    integer product of the normalized price per token and the quantity
    (the [offer] transaction itself carries the price per token and the
    quantity); in [buyoutListing] the value given to [setErc20Allowance]
    and the value argument of the [buy] transaction are the integer
    product of the listing's [buyoutPrice] and the quantity.  The
    products are products in [Z]: nothing is rounded.  And these calls
    are made: once the steps before it have answered, each method asks
    for the allowance of that product, and [buyoutListing] sends [buy]
    with it once the allowance is set. *)
Theorem total_value_exact (w : World) (i q : BigNumberish)
    (o : MarketplaceDirect.t) :
  (forall cur price exp ev,
     In ev (trace (MarketplaceDirect.makeOffer w i q cur price exp o)) ->
     is_write ev = true ->
     exists np qn,
       normalizePriceValue w
         (cw_getProvider w (MarketplaceDirect.contractWrapper o)) price cur
       = Ok np /\
       BigNumber_from q = Ok qn /\
       ((exists c ov, ev = ESetErc20Allowance c (np * qn) cur ov) \/
        (exists c e ov,
           ev = ESendTransaction c "offer"
                  [ANum i; ANum q; AStr cur; ANum (BnBig np); ANum (BnBig e)]
                  ov)))
  /\
  (forall rcv ev,
     In ev (trace (MarketplaceDirect.buyoutListing w i q rcv o)) ->
     is_write ev = true ->
     exists n d p qn,
       BigNumber_from i = Ok n /\
       result (MarketplaceDirect.getListing w (BnBig n) o) = Ok d /\
       BigNumber_from (dl_buyoutPrice d) = Ok p /\
       BigNumber_from q = Ok qn /\
       ((exists c ov,
           ev = ESetErc20Allowance c (p * qn) (dl_currencyContractAddress d) ov)
        \/
        (exists c buyFor ov,
           ev = ESendTransaction c "buy"
                  [ANum i; AStr buyFor; ANum (BnBig qn);
                   AStr (dl_currencyContractAddress d); ANum (BnBig (p * qn))]
                  ov)))
  /\
  (forall cur price exp np d qn ovo,
     isNativeToken w cur = false ->
     normalizePriceValue w
       (cw_getProvider w (MarketplaceDirect.contractWrapper o)) price cur
     = Ok np ->
     result (MarketplaceDirect.getListing w i o) = Ok d ->
     BigNumber_from q = Ok qn ->
     cw_getCallOverrides w (MarketplaceDirect.contractWrapper o) = Ok ovo ->
     In (ESetErc20Allowance (MarketplaceDirect.contractWrapper o) (np * qn) cur
           (match ovo with Some v => v | None => [] end))
        (trace (MarketplaceDirect.makeOffer w i q cur price exp o)))
  /\
  (forall rcv n d buyFor qn p ovo,
     BigNumber_from i = Ok n ->
     result (MarketplaceDirect.getListing w (BnBig n) o) = Ok d ->
     result (MarketplaceDirect.isStillValidListing w d (Some q) o) = Ok true ->
     match rcv with
     | Some r =>
         if String.eqb r ""
         then cw_getSignerAddress w (MarketplaceDirect.contractWrapper o)
         else Ok r
     | None => cw_getSignerAddress w (MarketplaceDirect.contractWrapper o)
     end = Ok buyFor ->
     BigNumber_from q = Ok qn ->
     BigNumber_from (dl_buyoutPrice d) = Ok p ->
     cw_getCallOverrides w (MarketplaceDirect.contractWrapper o) = Ok ovo ->
     let c := MarketplaceDirect.contractWrapper o in
     let r := MarketplaceDirect.buyoutListing w i q rcv o in
     let ov0 := match ovo with Some v => v | None => [] end in
     In (ESetErc20Allowance c (p * qn) (dl_currencyContractAddress d) ov0)
        (trace r) /\
     (forall ov,
        setErc20Allowance w c (p * qn) (dl_currencyContractAddress d) ov0
        = Ok ov ->
        In (ESendTransaction c "buy"
              [ANum i; AStr buyFor; ANum (BnBig qn);
               AStr (dl_currencyContractAddress d); ANum (BnBig (p * qn))]
              (Some ov))
           (trace r))).
Proof.
  split; [|split; [|split]].
  - intros cur price exp ev Hin Hw.
    destruct (makeOffer_events w i q cur price exp o _ Hin)
      as [Hw'|(np & d & qn & _ & Hp & _ & Hq & Hev)]; [congruence|].
    exists np, qn. repeat (split; [assumption|]).
    destruct Hev as [(x & ->)|(e & x & ->)]; [left|right]; eauto 10.
  - intros rcv ev Hin Hw.
    destruct (buyoutListing_events w i q rcv o _ Hin)
      as [Hw'|(n & d & p & qn & Hn & Hd & _ & Hq & Hp & Hev)];
      [congruence|].
    exists n, d, p, qn. repeat (split; [assumption|]).
    destruct Hev as [(x & ->)|(b & x & ->)]; [left|right]; eauto 10.
  - intros cur price exp np d qn ovo Hn Hp Hd Hq Ho.
    apply makeOffer_sets_allowance with d; assumption.
  - intros rcv n d buyFor qn p ovo Hn Hd Hs Hb Hq Hp Ho.
    apply buyoutListing_sets_allowance with n; assumption.
Qed.

(** C7, witness: an offer of 2 at 3 per token asks for an allowance of 6,
    and buying 3 at 2 per token sends [buy] with 6 (in units of 10^18). *)
Lemma total_value_exact_witness :
  In (ESetErc20Allowance 1%nat 6000000000000000000 token_addr [])
     (trace (MarketplaceDirect.makeOffer w_direct (BnNumber 7) (BnNumber 2)
               token_addr "3" None md0))
  /\
  In (ESendTransaction 1%nat "buy"
        [ANum (BnNumber 7); AStr buyer; ANum (BnBig 3); AStr token_addr;
         ANum (BnBig 6000000000000000000)] (Some []))
     (trace (MarketplaceDirect.buyoutListing w_1155 (BnNumber 7) (BnString "3")
               None md0)).
Proof.
  destruct (total_value_exact w_direct (BnNumber 7) (BnNumber 2) md0)
    as (_ & _ & H & _).
  destruct (total_value_exact w_1155 (BnNumber 7) (BnString "3") md0)
    as (_ & _ & _ & H').
  split.
  - apply (H token_addr "3" None 3000000000000000000 direct7 2 None);
      reflexivity.
  - destruct (H' None 7 direct7 buyer 3 2000000000000000000 None) as (_ & Hb);
      try reflexivity.
    apply (Hb []). reflexivity.
Defined.

(** ** createListing *)

Section CreateListing.
Import MarketplaceDirect.
Variable w : World.

(** [if (listingStartTime < blockTime) listingStartTime = blockTime]. *)
Lemma start_time_max a b : (if a <? b then b else a) = Z.max a b.
Proof. destruct (Z.ltb_spec a b); lia. Qed.

Lemma BigNumber_from_number n st : BigNumber_from (BnNumber n) = Ok st -> st = n.
Proof. unfold BigNumber_from. destruct (_ || _); congruence. Qed.

(** The only write events of [createListing] are the token approval and
    one [createListing] transaction, whose struct holds the normalized
    price twice and the later of the two times. *)
Lemma createListing_events listing o ev :
  In ev (trace (createListing w listing o)) ->
  is_write ev = false \/
  (exists sp a s, ev = EHandleTokenApproval sp a (nl_assetContractAddress listing)
                         (nl_tokenId listing) s) \/
  exists n bt,
    normalizePriceValue w (cw_getProvider w (contractWrapper o))
      (nl_buyoutPricePerToken listing) (nl_currencyContractAddress listing)
    = Ok n /\
    provider_getBlock w (cw_getProvider w (contractWrapper o)) "latest" = Ok bt /\
    ev = ESendTransaction (contractWrapper o) "createListing"
           [AListing (listingParameters listing n
                        (Z.max (nl_startTimestamp listing / 1000) bt))]
           (Some gas_overrides).
Proof.
  unfold createListing, getProvider, getAddress, wrapper; run.
  repeat first
    [ step
    | match goal with
      | |- context [match cw_parseLogs ?a ?b ?c ?d with _ => _ end] =>
          destruct (cw_parseLogs a b c d); cbn
      end ].
  all: intro H;
    repeat (destruct H as [<-|H];
            [first [ left; reflexivity
                   | right; left; do 3 eexists; reflexivity
                   | idtac ]|]);
    try contradiction.
  all: right; right;
    match goal with
    | E : BigNumber_from (BnNumber _) = Ok _ |- _ =>
        apply BigNumber_from_number in E; rewrite start_time_max in E; subst
    end;
    do 2 eexists; repeat (split; [first [eassumption|reflexivity]|]); reflexivity.
Qed.

(** The run of [createListing] once every step before the transaction
    has answered. *)
Lemma createListing_submits listing o signer n bt :
  validateNewListingParam w listing = Ok tt ->
  cw_getSignerAddress w (contractWrapper o) = Ok signer ->
  handleTokenApproval w (cw_getSignerOrProvider w (contractWrapper o))
    (cw_address w (contractWrapper o)) (nl_assetContractAddress listing)
    (nl_tokenId listing) signer = Ok tt ->
  normalizePriceValue w (cw_getProvider w (contractWrapper o))
    (nl_buyoutPricePerToken listing) (nl_currencyContractAddress listing)
  = Ok n ->
  provider_getBlock w (cw_getProvider w (contractWrapper o)) "latest" = Ok bt ->
  - MAX_SAFE < Z.max (nl_startTimestamp listing / 1000) bt < MAX_SAFE ->
  let c := contractWrapper o in
  let p := cw_getProvider w c in
  trace (createListing w listing o) =
  [EGetSignerAddress c;
   EHandleTokenApproval (cw_getSignerOrProvider w c) (cw_address w c)
     (nl_assetContractAddress listing) (nl_tokenId listing) signer;
   ENormalizePriceValue p (nl_buyoutPricePerToken listing)
     (nl_currencyContractAddress listing);
   EGetBlock p "latest";
   ESendTransaction c "createListing"
     [AListing (listingParameters listing n
                  (Z.max (nl_startTimestamp listing / 1000) bt))]
     (Some gas_overrides)].
Proof.
  intros Hv Hs Ha Hn Hb Hr c p; subst c p.
  unfold createListing, getProvider, getAddress, wrapper; run.
  rewrite Hv; cbn. rewrite Hs; cbn. rewrite Ha; cbn. rewrite Hn; cbn.
  rewrite Hb; cbn. rewrite start_time_max.
  unfold BigNumber_from.
  replace ((MAX_SAFE <=? _) || _) with false
    by (symmetry; apply orb_false_iff; split;
        [apply Z.leb_gt|apply Z.leb_gt]; lia).
  cbn. step; [destruct (cw_parseLogs _ _ _ _)|]; reflexivity.
Qed.
End CreateListing.

(** C3: every transaction [createListing] sends is a [createListing]
    whose struct carries, as [buyoutPricePerToken] and as
    [reservePricePerToken], the one value [normalizePriceValue] returned
    for the listing's price and currency, with [listingType] Direct; and
    it is sent once validation, approval, normalization and the block
    read have answered. *)
Theorem createListing_price (w : World) (listing : NewDirectListing)
    (o : MarketplaceDirect.t) :
  let c := MarketplaceDirect.contractWrapper o in
  let p := cw_getProvider w c in
  let r := MarketplaceDirect.createListing w listing o in
  (forall c' fn args ov,
     In (ESendTransaction c' fn args ov) (trace r) ->
     exists n ps,
       normalizePriceValue w p (nl_buyoutPricePerToken listing)
         (nl_currencyContractAddress listing) = Ok n /\
       fn = "createListing" /\
       args = [AListing ps] /\
       lp_buyoutPricePerToken ps = n /\
       lp_reservePricePerToken ps = n /\
       lp_listingType ps = Direct /\
       lp_currencyToAccept ps = nl_currencyContractAddress listing)
  /\
  (forall signer n bt,
     validateNewListingParam w listing = Ok tt ->
     cw_getSignerAddress w c = Ok signer ->
     handleTokenApproval w (cw_getSignerOrProvider w c) (cw_address w c)
       (nl_assetContractAddress listing) (nl_tokenId listing) signer = Ok tt ->
     normalizePriceValue w p (nl_buyoutPricePerToken listing)
       (nl_currencyContractAddress listing) = Ok n ->
     provider_getBlock w p "latest" = Ok bt ->
     - MAX_SAFE < Z.max (nl_startTimestamp listing / 1000) bt < MAX_SAFE ->
     exists ps,
       In (ESendTransaction c "createListing" [AListing ps]
             (Some MarketplaceDirect.gas_overrides)) (trace r) /\
       lp_buyoutPricePerToken ps = n /\
       lp_reservePricePerToken ps = n /\
       lp_listingType ps = Direct).
Proof.
  intros c p r; subst c p r; split.
  - intros c' fn args ov Hin.
    destruct (createListing_events w listing o _ Hin)
      as [Hw|[(sp & a & s & E)|(n & bt & Hn & _ & E)]]; try discriminate.
    injection E as -> -> -> ->.
    exists n, (MarketplaceDirect.listingParameters listing n
                 (Z.max (nl_startTimestamp listing / 1000) bt)).
    repeat split; auto.
  - intros signer n bt Hv Hs Ha Hn Hb Hr.
    rewrite (createListing_submits w listing o Hv Hs Ha Hn Hb Hr).
    eexists; split; [cbn; auto 10|]. repeat split.
Qed.

(** C9: the [startTime] of every [createListing] transaction sent is the
    maximum of [floor(startTimestamp / 1000)], in seconds, and the
    timestamp of the latest block, and so is never earlier than that
    block; and the transaction is sent once validation, approval,
    normalization and the block read have answered. *)
Theorem createListing_startTime (w : World) (listing : NewDirectListing)
    (o : MarketplaceDirect.t) :
  let c := MarketplaceDirect.contractWrapper o in
  let p := cw_getProvider w c in
  let r := MarketplaceDirect.createListing w listing o in
  (forall c' fn args ov,
     In (ESendTransaction c' fn args ov) (trace r) ->
     exists bt ps,
       provider_getBlock w p "latest" = Ok bt /\
       args = [AListing ps] /\
       lp_startTime ps = Z.max (nl_startTimestamp listing / 1000) bt /\
       bt <= lp_startTime ps)
  /\
  (forall signer n bt,
     validateNewListingParam w listing = Ok tt ->
     cw_getSignerAddress w c = Ok signer ->
     handleTokenApproval w (cw_getSignerOrProvider w c) (cw_address w c)
       (nl_assetContractAddress listing) (nl_tokenId listing) signer = Ok tt ->
     normalizePriceValue w p (nl_buyoutPricePerToken listing)
       (nl_currencyContractAddress listing) = Ok n ->
     provider_getBlock w p "latest" = Ok bt ->
     - MAX_SAFE < Z.max (nl_startTimestamp listing / 1000) bt < MAX_SAFE ->
     exists ps,
       In (ESendTransaction c "createListing" [AListing ps]
             (Some MarketplaceDirect.gas_overrides)) (trace r) /\
       lp_startTime ps = Z.max (nl_startTimestamp listing / 1000) bt).
Proof.
  intros c p r; subst c p r; split.
  - intros c' fn args ov Hin.
    destruct (createListing_events w listing o _ Hin)
      as [Hw|[(sp & a & s & E)|(n & bt & _ & Hb & E)]]; try discriminate.
    injection E as -> -> -> ->.
    exists bt, (MarketplaceDirect.listingParameters listing n
                  (Z.max (nl_startTimestamp listing / 1000) bt)).
    repeat split; auto. cbn. lia.
  - intros signer n bt Hv Hs Ha Hn Hb Hr.
    rewrite (createListing_submits w listing o Hv Hs Ha Hn Hb Hr).
    eexists; split; [cbn; auto 10|]. reflexivity.
Qed.

(** A listing that opens before the latest block starts at the block. *)
Example createListing_run :
  MarketplaceDirect.createListing w_direct newListing md0
  = mkOutcome (Ok {| id := 7; receipt_id := txReceipt 1 |}) md0
      [EGetSignerAddress 1%nat;
       EHandleTokenApproval 201%nat market asset_addr (BnString "5") buyer;
       ENormalizePriceValue 101%nat "2" NATIVE_TOKEN_ADDRESS;
       EGetBlock 101%nat "latest";
       ESendTransaction 1%nat "createListing"
         [AListing
            {| lp_assetContract := asset_addr;
               lp_tokenId := BnString "5";
               lp_buyoutPricePerToken := 2000000000000000000;
               lp_currencyToAccept := NATIVE_TOKEN_ADDRESS;
               lp_listingType := Direct;
               lp_quantityToList := BnNumber 1;
               lp_reservePricePerToken := 2000000000000000000;
               lp_secondsUntilEndTime := BnNumber 86400;
               lp_startTime := 1700000100 |}]
         (Some [("gasLimit", BnNumber 500000)])].
Proof. reflexivity. Qed.

(** A listing that opens after the latest block keeps its own time,
    floored to the second. *)
Example createListing_later :
  exists ps,
    In (ESendTransaction 1%nat "createListing" [AListing ps]
          (Some MarketplaceDirect.gas_overrides))
       (trace (MarketplaceDirect.createListing w_direct
                 {| nl_assetContractAddress := asset_addr;
                    nl_tokenId := BnString "5";
                    nl_startTimestamp := 1800000000999;
                    nl_listingDurationInSeconds := BnNumber 86400;
                    nl_quantity := BnNumber 1;
                    nl_currencyContractAddress := token_addr;
                    nl_buyoutPricePerToken := "2" |} md0)) /\
    lp_startTime ps = 1800000000.
Proof. eexists; split; [vm_compute; auto 10|reflexivity]. Qed.

(** ** Erc20BatchMintable.to *)

Section BatchMint.
Import Erc20BatchMintable.
Variable w : World.

Lemma encode_one_ok arg o e :
  encodes w o arg e ->
  encode_one w arg o = mkOutcome (Ok e) o [ENormalizeAmount (erc20 o) (amount arg)].
Proof.
  intros (n & Hn & He). unfold encode_one; run. rewrite Hn; cbn.
  rewrite He. reflexivity.
Qed.

Lemma encode_one_inv arg o :
  self (encode_one w arg o) = o /\
  trace (encode_one w arg o) = [ENormalizeAmount (erc20 o) (amount arg)] /\
  (forall e, result (encode_one w arg o) = Ok e -> encodes w o arg e).
Proof.
  unfold encode_one, encodes; run.
  destruct (normalizeAmount w (erc20 o) (amount arg)) as [n|x]; cbn.
  - destruct (cw_encodeFunctionData _ _ _ _) eqn:E; cbn;
      repeat split; try discriminate.
    intros e [= <-]. eauto.
  - repeat split; discriminate.
Qed.

(** The loop with every amount normalized and every call encoded. *)
Lemma encode_loop_ok args : forall encoded o encs,
  Forall2 (encodes w o) args encs ->
  encode_loop w args encoded o
  = mkOutcome (Ok (encoded ++ encs)%list) o (normalize_events o args).
Proof.
  induction args as [|arg rest IH]; intros encoded o encs H; inversion H; subst.
  - cbn. rewrite app_nil_r. reflexivity.
  - cbn [encode_loop].
    assert (E : result (encode_one w arg o) = Ok y)
      by (rewrite (encode_one_ok H2); reflexivity).
    rewrite (bind_ok _ _ _ E), (encode_one_ok H2); cbn.
    rewrite (IH _ _ _ H4); cbn. rewrite <- app_assoc. reflexivity.
Qed.

(** The loop in general: it leaves the fields alone, emits one
    normalization per input it reached, and returns only arrays made of
    the encodings of the inputs, in order. *)
Lemma encode_loop_inv args : forall encoded o,
  self (encode_loop w args encoded o) = o /\
  (forall ev, In ev (trace (encode_loop w args encoded o)) ->
              is_multiCall ev = false) /\
  (forall out, result (encode_loop w args encoded o) = Ok out ->
     exists encs, out = (encoded ++ encs)%list /\ Forall2 (encodes w o) args encs).
Proof.
  induction args as [|arg rest IH]; intros encoded o.
  - cbn. repeat split; [intros ev []|].
    intros out [= <-]. exists []. rewrite app_nil_r. auto.
  - cbn [encode_loop].
    destruct (encode_one_inv arg o) as (Hs & Ht & Hr).
    destruct (result (encode_one w arg o)) as [e|x] eqn:E.
    + rewrite (bind_ok _ _ _ E); cbn. rewrite Hs, Ht.
      destruct (IH (encoded ++ [e])%list o) as (Is & It & Ir).
      repeat split; auto.
      * intros ev [<-|Hin]; [reflexivity|auto].
      * intros out Hout. destruct (Ir _ Hout) as (encs & -> & HF).
        exists (e :: encs). rewrite <- app_assoc. split; [reflexivity|].
        constructor; auto.
    + rewrite (bind_throw _ _ _ E); cbn. rewrite Ht.
      repeat split; auto; [|discriminate].
      intros ev [<-|[]]; reflexivity.
Qed.

Lemma frame_encode_loop args encoded : frame (encode_loop w args encoded).
Proof. intro o. apply encode_loop_inv. Qed.
End BatchMint.

(** C2: when every amount normalizes and every call encodes, [to] builds
    the array that holds, for each input and in the order of the inputs,
    the encoding of [mintTo(toAddress, normalized amount)], and submits
    that array in one [multiCall], the last event of the run; and in
    every run at most one [multiCall] is made, with such an array. *)
Theorem to_spec (w : World) (args : list TokenMintInput)
    (o : Erc20BatchMintable.t) :
  let c := Erc20BatchMintable.contractWrapper o in
  let r := Erc20BatchMintable.to w args o in
  (forall encs,
     Forall2 (encodes w o) args encs ->
     List.length encs = List.length args /\
     trace r = (normalize_events o args ++ [EMultiCall c encs])%list /\
     result r = match cw_multiCall w c encs with
                | Ok x => Ok {| receipt := x |}
                | Throw e => Throw e
                end)
  /\
  (forall c' encs,
     In (EMultiCall c' encs) (trace r) ->
     c' = c /\ Forall2 (encodes w o) args encs)
  /\
  (List.length (filter is_multiCall (trace r)) <= 1)%nat.
Proof.
  intros c r; subst c r. unfold Erc20BatchMintable.to.
  split; [|split].
  - intros encs HF. split; [symmetry; eapply Forall2_length; eauto|].
    assert (E : result (Erc20BatchMintable.encode_loop w args [] o) = Ok encs)
      by (rewrite (encode_loop_ok [] HF); reflexivity).
    rewrite (bind_ok _ _ _ E), (encode_loop_ok [] HF); run.
    destruct (cw_multiCall _ _ _); cbn; auto.
  - intros c' encs.
    destruct (encode_loop_inv w args [] o) as (Hs & Ht & Hr).
    destruct (result (Erc20BatchMintable.encode_loop w args [] o)) as [out|x] eqn:E.
    + rewrite (bind_ok _ _ _ E); cbn. rewrite Hs. run.
      destruct (Hr _ eq_refl) as (encs' & -> & HF). cbn in HF.
      assert (Hin : forall t,
                 In (EMultiCall c' encs)
                    (trace (Erc20BatchMintable.encode_loop w args [] o) ++ t) ->
                 t = [EMultiCall (Erc20BatchMintable.contractWrapper o) encs'] ->
                 c' = Erc20BatchMintable.contractWrapper o /\
                 Forall2 (encodes w o) args encs).
      { intros t Hin ->. apply in_app_iff in Hin. destruct Hin as [Hin|[Hin|[]]].
        - apply Ht in Hin. discriminate.
        - injection Hin as <- <-. auto. }
      destruct (cw_multiCall _ _ _); cbn; intro H; eapply Hin; eauto.
    + rewrite (bind_throw _ _ _ E); cbn. intro Hin. apply Ht in Hin. discriminate.
  - destruct (encode_loop_inv w args [] o) as (Hs & Ht & Hr).
    assert (Hnone : filter is_multiCall
                      (trace (Erc20BatchMintable.encode_loop w args [] o)) = []).
    { induction (trace (Erc20BatchMintable.encode_loop w args [] o)) as [|ev t IH];
        [reflexivity|].
      cbn. rewrite (Ht ev) by (left; reflexivity). apply IH.
      intros ev' H'. apply Ht. right; exact H'. }
    destruct (result (Erc20BatchMintable.encode_loop w args [] o)) as [out|x] eqn:E.
    + rewrite (bind_ok _ _ _ E); cbn. rewrite Hs. run.
      destruct (cw_multiCall _ _ _); cbn; rewrite filter_app, Hnone; cbn; lia.
    + rewrite (bind_throw _ _ _ E); cbn. rewrite Hnone. cbn; lia.
Qed.

Example to_run :
  Erc20BatchMintable.to w_direct mints bm0
  = mkOutcome (Ok {| receipt := txReceipt 2 |}) bm0
      [ENormalizeAmount 3%nat "2"; ENormalizeAmount 3%nat "5";
       EMultiCall 1%nat
         ["mintTo(0x2222222222222222222222222222222222222222,2000000000000000000)";
          "mintTo(0x1111111111111111111111111111111111abcdef,5000000000000000000)"]].
Proof. reflexivity. Qed.

(** An amount that does not normalize stops the loop: nothing is submitted. *)
Example to_bad_amount :
  Erc20BatchMintable.to w_direct
    [ {| toAddress := buyer; amount := "2" |};
      {| toAddress := seller; amount := "five" |};
      {| toAddress := buyer; amount := "1" |} ] bm0
  = mkOutcome (Throw (ExternalError "units")) bm0
      [ENormalizeAmount 3%nat "2"; ENormalizeAmount 3%nat "five"].
Proof. reflexivity. Qed.

(** ** Fields *)

Lemma frame_getRecipient w : frame (ContractPrimarySale.getRecipient w).
Proof. unfold ContractPrimarySale.getRecipient; walk frame. Qed.

Lemma frame_setRecipient w s : frame (ContractPrimarySale.setRecipient w s).
Proof. unfold ContractPrimarySale.setRecipient; walk frame. Qed.

Lemma frame_to w args : frame (Erc20BatchMintable.to w args).
Proof.
  pose proof (frame_encode_loop w args []).
  unfold Erc20BatchMintable.to; walk frame.
Qed.

(** The constructors are what writes the fields. *)
Example constructor_assigns :
  self (MarketplaceDirect.constructor 5%nat 6%nat md0)
  = {| MarketplaceDirect.contractWrapper := 5%nat;
       MarketplaceDirect.storage := 6%nat |}
  /\ self (Erc20BatchMintable.constructor "ERC20BatchMintable" 8%nat 9%nat bm0)
     = {| Erc20BatchMintable.featureName := "ERC20BatchMintable";
          Erc20BatchMintable.contractWrapper := 9%nat;
          Erc20BatchMintable.erc20 := 8%nat |}
  /\ ~ frame (MarketplaceDirect.constructor 5%nat 6%nat).
Proof.
  repeat split. intro H. specialize (H md0). discriminate H.
Qed.

(** C8: no method of [MarketplaceDirect], [ContractPrimarySale] or
    [Erc20BatchMintable] other than the constructor assigns a field of its
    object: after any call, whether it returned or threw, the object's
    fields ([contractWrapper], [storage], [erc20], [featureName]) hold
    what they held before. *)
Theorem methods_keep_fields (w : World) :
  (frame (MarketplaceDirect.getAddress w)
   /\ (forall i, frame (MarketplaceDirect.getListing w i))
   /\ (forall i a, frame (MarketplaceDirect.getActiveOffer w i a))
   /\ (forall l, frame (MarketplaceDirect.createListing w l))
   /\ (forall i q c p e, frame (MarketplaceDirect.makeOffer w i q c p e))
   /\ (forall i a, frame (MarketplaceDirect.acceptOffer w i a))
   /\ (forall i q r, frame (MarketplaceDirect.buyoutListing w i q r))
   /\ (forall l, frame (MarketplaceDirect.updateListing w l))
   /\ (forall i, frame (MarketplaceDirect.cancelListing w i))
   /\ (forall n, frame (MarketplaceDirect.validateListing w n))
   /\ (forall l, frame (MarketplaceDirect.mapListing w l))
   /\ (forall l q, frame (MarketplaceDirect.isStillValidListing w l q)))
  /\
  (frame (ContractPrimarySale.getRecipient w)
   /\ (forall s, frame (ContractPrimarySale.setRecipient w s)))
  /\
  (forall args, frame (Erc20BatchMintable.to w args)).
Proof.
  repeat match goal with |- _ /\ _ => split end; intros.
  - apply frame_getAddress.
  - apply frame_getListing.
  - apply frame_getActiveOffer.
  - apply frame_createListing.
  - apply frame_makeOffer.
  - apply frame_acceptOffer.
  - apply frame_buyoutListing.
  - apply frame_updateListing.
  - apply frame_cancelListing.
  - apply frame_validateListing.
  - apply frame_mapListing.
  - apply frame_isStillValidListing.
  - apply frame_getRecipient.
  - apply frame_setRecipient.
  - apply frame_to.
Qed.

(** * Further properties *)

(** ** Decimal strings *)

From Stdlib Require DecimalPos.

Lemma parse_digits_uint_pos u : forall a,
  parse_digits 10 digit_val (NilEmpty.string_of_uint u) (Zpos a)
  = Some (Zpos (Pos.of_uint_acc u a)).
Proof.
  induction u; intro a; cbn [NilEmpty.string_of_uint parse_digits Pos.of_uint_acc];
    [reflexivity|..];
    match goal with
    | |- context [digit_val ?c] =>
        change (digit_val c) with (Some (Z.of_nat (nat_of_ascii c) - 48))
    end; cbv iota; rewrite <- IHu; f_equal;
    match goal with
    | |- context [Z.of_nat ?x] =>
        let v := eval vm_compute in (Z.of_nat x) in change (Z.of_nat x) with v
    end; lia.
Qed.

Lemma parse_digits_uint u :
  parse_digits 10 digit_val (NilEmpty.string_of_uint u) 0
  = Some (Z.of_N (Pos.of_uint u)).
Proof.
  induction u; cbn [NilEmpty.string_of_uint parse_digits Pos.of_uint];
    [reflexivity|exact IHu|..];
    match goal with
    | |- context [digit_val ?c] =>
        change (digit_val c) with (Some (Z.of_nat (nat_of_ascii c) - 48))
    end; cbv iota; cbn [Z.of_N];
    match goal with
    | |- context [Pos.of_uint_acc _ ?k] =>
        rewrite <- (parse_digits_uint_pos u k)
    end; reflexivity.
Qed.

Lemma parse_integer_uint u :
  u <> Decimal.Nil ->
  parse_integer (NilEmpty.string_of_uint u)
  = parse_digits 10 digit_val (NilEmpty.string_of_uint u) 0.
Proof.
  destruct u as [|l|l|l|l|l|l|l|l|l|l]; intro H; try reflexivity;
    [contradiction|destruct l; reflexivity].
Qed.

Lemma string_of_uint_nonnil u :
  u <> Decimal.Nil -> NilZero.string_of_uint u = NilEmpty.string_of_uint u.
Proof. destruct u; [contradiction|reflexivity..]. Qed.

Lemma parse_unsigned_uint u :
  u <> Decimal.Nil ->
  parse_unsigned (NilEmpty.string_of_uint u)
  = parse_digits 10 digit_val (NilEmpty.string_of_uint u) 0.
Proof.
  destruct u as [|l|l|l|l|l|l|l|l|l|l]; intro H; try reflexivity;
    [contradiction|destruct l; reflexivity].
Qed.

(** A decimal print of an integer reads back as that integer. *)
Lemma parse_integer_toString n : parse_integer (Z_toString n) = Some n.
Proof.
  unfold Z_toString. destruct n as [|p|p]; [reflexivity|..]; cbn [Z.to_int];
    pose proof (DecimalPos.Unsigned.to_uint_nonnil p) as Hn;
    unfold NilZero.string_of_int; rewrite (string_of_uint_nonnil Hn).
  - rewrite (parse_integer_uint Hn), parse_digits_uint,
      DecimalPos.Unsigned.of_to. reflexivity.
  - cbn [parse_integer].
    rewrite (parse_unsigned_uint Hn), parse_digits_uint,
      DecimalPos.Unsigned.of_to. reflexivity.
Qed.

(** [BigNumber.from(n.toString())] is [n] again. *)
Lemma BigNumber_from_toString n :
  BigNumber_from (BnString (Z_toString n)) = Ok n.
Proof. unfold BigNumber_from. rewrite parse_integer_toString. reflexivity. Qed.

(** ** Read functions send nothing *)

Lemma quiet_getActiveOffer_write w i a :
  quiet is_write (MarketplaceDirect.getActiveOffer w i a).
Proof.
  pose proof (quiet_validateListing_write w).
  unfold MarketplaceDirect.getActiveOffer, MarketplaceDirect.getProvider,
    MarketplaceDirect.wrapper; walk quiet.
Qed.

Lemma quiet_getRecipient_write w :
  quiet is_write (ContractPrimarySale.getRecipient w).
Proof. unfold ContractPrimarySale.getRecipient; walk quiet. Qed.

(** X1: the read functions ([getListing], [getActiveOffer], [mapListing],
    [isStillValidListing], [validateListing], and [getRecipient] of
    [ContractPrimarySale]) never submit a transaction, set an allowance or
    approve a token, whatever the collaborators answer. *)
Theorem read_functions_send_nothing (w : World) :
  (forall i, quiet is_write (MarketplaceDirect.getListing w i))
  /\ (forall i a, quiet is_write (MarketplaceDirect.getActiveOffer w i a))
  /\ (forall l, quiet is_write (MarketplaceDirect.mapListing w l))
  /\ (forall l q, quiet is_write (MarketplaceDirect.isStillValidListing w l q))
  /\ (forall n, quiet is_write (MarketplaceDirect.validateListing w n))
  /\ quiet is_write (ContractPrimarySale.getRecipient w).
Proof.
  repeat match goal with |- _ /\ _ => split end; intros.
  - apply quiet_getListing_write.
  - apply quiet_getActiveOffer_write.
  - apply quiet_mapListing_write.
  - apply quiet_isStillValidListing_write.
  - apply quiet_validateListing_write.
  - apply quiet_getRecipient_write.
Qed.

(** ** validateListing and its callers *)

Section ValidateListing.
Import MarketplaceDirect.
Variable w : World.

Lemma validateListing_ok n o d :
  result (getListing w (BnBig n) o) = Ok d ->
  validateListing w n o = getListing w (BnBig n) o.
Proof. intro H. unfold validateListing. apply (try_catch_ok _ _ _ H). Qed.

Lemma validateListing_throw n o e :
  result (getListing w (BnBig n) o) = Throw e ->
  validateListing w n o
  = mkOutcome (Throw e) o
      (trace (getListing w (BnBig n) o)
       ++ [EConsoleError (msg_get_listing ++ Z_toString n) None]).
Proof.
  intro H. unfold validateListing.
  rewrite (try_catch_throw _ _ _ H), frame_getListing. reflexivity.
Qed.
End ValidateListing.

(** X2: [validateListing] is [getListing] when that returns; when it
    throws, the same error is thrown again after one [console.error]
    naming the id in decimal. *)
Theorem validateListing_spec (w : World) (n : Z) (o : MarketplaceDirect.t) :
  let g := MarketplaceDirect.getListing w (BnBig n) o in
  (forall d, result g = Ok d -> MarketplaceDirect.validateListing w n o = g)
  /\
  (forall e, result g = Throw e ->
     MarketplaceDirect.validateListing w n o
     = mkOutcome (Throw e) o
         (trace g ++ [EConsoleError
                        (MarketplaceDirect.msg_get_listing ++ Z_toString n) None])).
Proof.
  cbv zeta; split; intros.
  - apply validateListing_ok with d; assumption.
  - apply validateListing_throw; assumption.
Qed.

(** X3: when [getListing] rejects the listing (not found, not direct, or
    the read failed), [buyoutListing], [acceptOffer] and [getActiveOffer]
    throw that same error, having logged it and made no other call: no
    offer is read and nothing is sent. *)
Theorem rejected_listing_stops (w : World) (i : BigNumberish) (n : Z)
    (o : MarketplaceDirect.t) (e : JsError) :
  BigNumber_from i = Ok n ->
  result (MarketplaceDirect.getListing w (BnBig n) o) = Throw e ->
  let stop : forall A, Outcome MarketplaceDirect.t A := fun A =>
    mkOutcome (Throw e) o
      (trace (MarketplaceDirect.getListing w (BnBig n) o)
       ++ [EConsoleError (MarketplaceDirect.msg_get_listing ++ Z_toString n) None])
  in
  (forall q r, MarketplaceDirect.buyoutListing w i q r o = stop _)
  /\ (forall a, MarketplaceDirect.acceptOffer w i a o = stop _)
  /\ (forall a, MarketplaceDirect.getActiveOffer w i a o = stop _).
Proof.
  intros Hn He stop; subst stop.
  pose proof (validateListing_throw w n o He) as Hv.
  repeat split; intros.
  - unfold MarketplaceDirect.buyoutListing; run. rewrite Hn; cbn.
    rewrite Hv. reflexivity.
  - unfold MarketplaceDirect.acceptOffer; run. rewrite Hn; cbn.
    rewrite Hv. reflexivity.
  - unfold MarketplaceDirect.getActiveOffer; run. rewrite Hn; cbn.
    rewrite Hv. reflexivity.
Qed.

(** X3, witness: an id given in hexadecimal that holds no listing. *)
Lemma rejected_listing_stops_witness :
  MarketplaceDirect.buyoutListing w_missing (BnString "0x07") (BnNumber 1) None md0
  = mkOutcome (Throw (ListingNotFoundError market "7")) md0
      [EListings 1%nat (BnBig 7);
       EConsoleError "Error getting the listing with id 7" None].
Proof.
  destruct (rejected_listing_stops w_missing (BnString "0x07") (n := 7) md0
              (e := ListingNotFoundError market "7") eq_refl eq_refl)
    as (H & _).
  rewrite H. reflexivity.
Defined.

(** X4: with a non-native currency and a normalized price, when
    [getListing] throws, [makeOffer] logs that error and throws a plain
    [Error] naming the id instead; nothing is sent. *)
Theorem makeOffer_masks_listing_error (w : World) (i q : BigNumberish)
    (cur : string) (price : Price) (exp : option Date)
    (o : MarketplaceDirect.t) (np : Z) (e : JsError) :
  isNativeToken w cur = false ->
  normalizePriceValue w (cw_getProvider w (MarketplaceDirect.contractWrapper o))
    price cur = Ok np ->
  result (MarketplaceDirect.getListing w i o) = Throw e ->
  MarketplaceDirect.makeOffer w i q cur price exp o
  = mkOutcome
      (Throw (Error (MarketplaceDirect.msg_get_listing ++ toString i))) o
      (ENormalizePriceValue
         (cw_getProvider w (MarketplaceDirect.contractWrapper o)) price cur
       :: trace (MarketplaceDirect.getListing w i o)
       ++ [EConsoleError "Failed to get listing, err =" (Some e)]).
Proof.
  intros Hn Hp He.
  unfold MarketplaceDirect.makeOffer, MarketplaceDirect.getProvider,
    MarketplaceDirect.wrapper, MarketplaceDirect.console_error; run.
  rewrite Hn, Hp; cbn.
  rewrite (frame_eta (frame_getListing w i) o); cbn. rewrite He; cbn.
  reflexivity.
Qed.

(** X4, witness: an offer on the auction listing. *)
Lemma makeOffer_masks_listing_error_witness :
  result (MarketplaceDirect.makeOffer w_auction (BnNumber 7) (BnNumber 2)
            token_addr "3" None md0)
  = Throw (Error "Error getting the listing with id 7").
Proof.
  rewrite (makeOffer_masks_listing_error w_auction (BnNumber 7) (BnNumber 2)
             token_addr "3" None md0 (np := 3000000000000000000)
             (e := WrongListingTypeError market "7" "Auction" "Direct")
             eq_refl eq_refl eq_refl).
  reflexivity.
Defined.

(** ** acceptOffer *)

(** X5: every transaction [acceptOffer] sends is [acceptOffer] for a
    listing [getListing] returned, with the currency and the price per
    token of the offer stored for the address; and it is sent whenever
    the listing validates and the offer is read, also when the stored
    offer is empty (its offeror is not looked at). *)
Theorem acceptOffer_spec (w : World) (i : BigNumberish) (a : string)
    (o : MarketplaceDirect.t) :
  let c := MarketplaceDirect.contractWrapper o in
  let r := MarketplaceDirect.acceptOffer w i a o in
  (forall c' fn args ov,
     In (ESendTransaction c' fn args ov) (trace r) ->
     exists n d os,
       BigNumber_from i = Ok n /\
       result (MarketplaceDirect.getListing w (BnBig n) o) = Ok d /\
       cw_offers w c i a = Ok os /\
       c' = c /\ fn = "acceptOffer" /\ ov = None /\
       args = [ANum i; AStr a; AStr (os_currency os); ANum (os_pricePerToken os)])
  /\
  (forall n d os,
     BigNumber_from i = Ok n ->
     result (MarketplaceDirect.getListing w (BnBig n) o) = Ok d ->
     cw_offers w c i a = Ok os ->
     trace r =
       (trace (MarketplaceDirect.getListing w (BnBig n) o)
        ++ [EOffers c i a;
            ESendTransaction c "acceptOffer"
              [ANum i; AStr a; AStr (os_currency os); ANum (os_pricePerToken os)]
              None])%list).
Proof.
  intros c r; subst c r; split.
  - intros c' fn args ov.
    unfold MarketplaceDirect.acceptOffer, MarketplaceDirect.sendTransaction,
      MarketplaceDirect.wrapper; run.
    destruct (BigNumber_from i) as [n|e] eqn:En; cbn; [|intros []].
    pose proof (quiet_validateListing_write w n o) as Hv.
    pose proof (eq_sym (validateListing_result w n o)) as Hr.
    rewrite (frame_eta (frame_validateListing w n) o); cbn.
    destruct (result (MarketplaceDirect.validateListing w n o)) as [d|e] eqn:Ed;
      cbn; [|intro H; apply Hv in H; discriminate].
    repeat step; rewrite in_app_iff; cbn;
      (intros [H|H]; [apply Hv in H; discriminate|]);
      repeat (destruct H as [H|H]; [try discriminate H|]); try contradiction;
      injection H as <- <- <- <-; exists n, d; eexists; repeat split; eauto.
  - intros n d os Hn Hd Ho.
    unfold MarketplaceDirect.acceptOffer, MarketplaceDirect.sendTransaction,
      MarketplaceDirect.wrapper; run.
    rewrite Hn; cbn. rewrite (validateListing_ok w n o Hd).
    rewrite (frame_eta (frame_getListing w (BnBig n)) o); cbn.
    rewrite Hd; cbn. rewrite Ho; cbn.
    destruct (cw_sendTransaction _ _ _ _ _); reflexivity.
Qed.

(** No offer is stored for the buyer on listing 7, and the acceptance is
    sent all the same, with the zero address as currency. *)
Example acceptOffer_empty_offer :
  MarketplaceDirect.acceptOffer w_direct (BnNumber 7) buyer md0
  = mkOutcome (Ok {| receipt := txReceipt 1 |}) md0
      [EListings 1%nat (BnBig 7);
       EFetchCurrencyValue 101%nat token_addr (BnBig 2000000000000000000);
       EFetchTokenMetadata asset_addr 101%nat (BnBig 5) 2%nat;
       EOffers 1%nat (BnNumber 7) buyer;
       ESendTransaction 1%nat "acceptOffer"
         [ANum (BnNumber 7); AStr buyer; AStr AddressZero; ANum (BnBig 0)] None].
Proof. reflexivity. Qed.

(** ** The listing getListing returns *)

Section ListingFields.
Import MarketplaceDirect.
Variable w : World.

Lemma mapListing_ok l o d :
  result (mapListing w l o) = Ok d ->
  exists p v s,
    BigNumber_from (ls_buyoutPricePerToken l) = Ok p /\
    d = {| dl_assetContractAddress := ls_assetContract l;
           dl_buyoutPrice := BnBig p;
           dl_currencyContractAddress := ls_currency l;
           dl_buyoutCurrencyValuePerToken := v;
           dl_id := toString (ls_listingId l);
           dl_tokenId := ls_tokenId l;
           dl_quantity := ls_quantity l;
           dl_startTimeInSeconds := ls_startTime l;
           dl_asset := s;
           dl_secondsUntilEnd := ls_endTime l;
           dl_sellerAddress := ls_tokenOwner l;
           dl_type := Direct |}.
Proof.
  unfold mapListing, getProvider, wrapper; run.
  repeat step; intro H; try discriminate H.
  injection H as <-. eauto.
Qed.
End ListingFields.

(** X6: a listing [getListing] returns is the stored listing field by
    field: its asset contract is not the zero address, its type is
    Direct, its [buyoutPrice] is the [BigNumber] of the stored buyout
    price (so converting it again cannot fail), its id is the stored id
    printed, and [sellerAddress], [tokenId], [quantity], currency, start
    and end are the stored [tokenOwner], [tokenId], [quantity],
    [currency], [startTime] and [endTime]. *)
Theorem getListing_fields (w : World) (i : BigNumberish)
    (o : MarketplaceDirect.t) (d : DirectListing) :
  result (MarketplaceDirect.getListing w i o) = Ok d ->
  exists l p,
    cw_listings w (MarketplaceDirect.contractWrapper o) i = Ok l /\
    BigNumber_from (ls_buyoutPricePerToken l) = Ok p /\
    dl_assetContractAddress d = ls_assetContract l /\
    dl_assetContractAddress d <> AddressZero /\
    dl_type d = Direct /\
    dl_buyoutPrice d = BnBig p /\
    BigNumber_from (dl_buyoutPrice d) = Ok p /\
    dl_id d = toString (ls_listingId l) /\
    dl_sellerAddress d = ls_tokenOwner l /\
    dl_tokenId d = ls_tokenId l /\
    dl_quantity d = ls_quantity l /\
    dl_currencyContractAddress d = ls_currency l /\
    dl_startTimeInSeconds d = ls_startTime l /\
    dl_secondsUntilEnd d = ls_endTime l.
Proof.
  intro H. destruct (getListing_ok w i o H) as (l & Hl & Hz & _ & Hm).
  destruct (mapListing_ok w l o Hm) as (p & v & s & Hp & ->).
  exists l, p. cbn. repeat split; auto.
Qed.

(** X6, witness: listing 7 of the sample marketplace. *)
Lemma getListing_fields_witness :
  exists l p,
    cw_listings w_direct 1%nat (BnNumber 7) = Ok l /\
    BigNumber_from (ls_buyoutPricePerToken l) = Ok p /\
    dl_buyoutPrice direct7 = BnBig p /\
    dl_id direct7 = toString (ls_listingId l).
Proof.
  destruct (getListing_fields w_direct (BnNumber 7) md0 (d := direct7) eq_refl)
    as (l & p & H1 & H2 & _ & _ & _ & H3 & _ & H4 & _).
  exists l, p. auto.
Defined.

(** X7: [updateListing] applied to a listing [getListing] returned sends
    one [updateListing] transaction and reads nothing; it carries the
    stored quantity, currency and start time, the stored buyout price
    both as reserve and as buyout price, the stored [endTime] as
    [secondsUntilEndTime], and the id as a decimal string, which for an
    id stored as a [BigNumber] converts back to that id. *)
Theorem updateListing_of_getListing (w : World) (i : BigNumberish)
    (o : MarketplaceDirect.t) (d : DirectListing) :
  result (MarketplaceDirect.getListing w i o) = Ok d ->
  exists l p,
    cw_listings w (MarketplaceDirect.contractWrapper o) i = Ok l /\
    BigNumber_from (ls_buyoutPricePerToken l) = Ok p /\
    trace (MarketplaceDirect.updateListing w d o) =
      [ESendTransaction (MarketplaceDirect.contractWrapper o) "updateListing"
         [ANum (BnString (toString (ls_listingId l))); ANum (ls_quantity l);
          ANum (BnBig p); ANum (BnBig p); AStr (ls_currency l);
          ANum (ls_startTime l); ANum (ls_endTime l)] None] /\
    (forall n, ls_listingId l = BnBig n ->
       BigNumber_from (BnString (toString (ls_listingId l))) = Ok n).
Proof.
  intro H. destruct (getListing_ok w i o H) as (l & Hl & _ & _ & Hm).
  destruct (mapListing_ok w l o Hm) as (p & v & s & Hp & ->).
  exists l, p. repeat split; auto.
  - unfold MarketplaceDirect.updateListing, MarketplaceDirect.sendTransaction,
      MarketplaceDirect.wrapper; run.
    destruct (cw_sendTransaction _ _ _ _ _); reflexivity.
  - intros n ->. apply BigNumber_from_toString.
Qed.

(** X7, witness: listing 7 read and sent back. *)
Lemma updateListing_of_getListing_witness :
  trace (MarketplaceDirect.updateListing w_direct direct7 md0) =
    [ESendTransaction 1%nat "updateListing"
       [ANum (BnString "7"); ANum (BnBig 3); ANum (BnBig 2000000000000000000);
        ANum (BnBig 2000000000000000000); AStr token_addr;
        ANum (BnBig 1700000000); ANum (BnBig 1700086400)] None]
  /\ BigNumber_from (BnString "7") = Ok 7.
Proof.
  destruct (updateListing_of_getListing w_direct (BnNumber 7) md0 (d := direct7)
              eq_refl) as (l & p & Hl & Hp & Ht & Hn).
  injection Hl as <-. injection Hp as <-.
  split; [exact Ht|exact (Hn 7 eq_refl)].
Defined.

(** ** buyoutListing: who receives, and when it buys *)

Section BuyoutRecipient.
Import MarketplaceDirect.
Variable w : World.

Lemma quiet_mapListing_signer l : quiet is_signer_read (mapListing w l).
Proof. unfold mapListing, getProvider, wrapper; walk quiet. Qed.

Lemma quiet_getListing_signer i : quiet is_signer_read (getListing w i).
Proof.
  pose proof quiet_mapListing_signer.
  unfold getListing, getAddress, wrapper; walk quiet.
Qed.

Lemma quiet_validateListing_signer n : quiet is_signer_read (validateListing w n).
Proof.
  pose proof quiet_getListing_signer.
  unfold validateListing, console_error; walk quiet.
Qed.

Lemma quiet_isStillValidListing_signer l q :
  quiet is_signer_read (isStillValidListing w l q).
Proof.
  unfold isStillValidListing, getProvider, getAddress, wrapper, console_error.
  walk quiet.
Qed.

(** X8: the recipient of every [buy] that [buyoutListing] sends is the
    [receiver] argument when one is given and is not empty, and then the
    signer's address is never asked for; otherwise it is the address
    [getSignerAddress] answered. *)
Theorem buyoutListing_recipient i q rcv o c fn args ov :
  In (ESendTransaction c fn args ov) (trace (buyoutListing w i q rcv o)) ->
  exists buyFor,
    nth_error args 1 = Some (AStr buyFor) /\
    match rcv with
    | Some r =>
        if String.eqb r "" then cw_getSignerAddress w (contractWrapper o) = Ok buyFor
        else buyFor = r /\
             forall ev, In ev (trace (buyoutListing w i q rcv o)) ->
                        is_signer_read ev = false
    | None => cw_getSignerAddress w (contractWrapper o) = Ok buyFor
    end.
Proof.
  unfold buyoutListing, getCallOverrides, allowance, sendTransaction, wrapper;
    run.
  destruct (BigNumber_from i) as [n|e] eqn:En; cbn; [|intros []].
  pose proof (quiet_validateListing_write w n o) as Hv.
  pose proof (quiet_validateListing_signer n o) as Hv'.
  rewrite (frame_eta (frame_validateListing w n) o); cbn.
  destruct (result (validateListing w n o)) as [d|e] eqn:Ed; cbn;
    [|intro H; apply Hv in H; discriminate].
  pose proof (quiet_isStillValidListing_write w d (Some q) o) as Hs.
  pose proof (quiet_isStillValidListing_signer d (Some q) o) as Hs'.
  rewrite (frame_eta (frame_isStillValidListing w d (Some q)) o); cbn.
  destruct (result (isStillValidListing w d (Some q) o)) as [[|]|e] eqn:Es; cbn.
  2, 3: rewrite ?app_nil_r, ?in_app_iff; intros [H|H];
    [apply Hv in H|apply Hs in H]; discriminate.
  destruct rcv as [r|]; [destruct (String.eqb r "") eqn:Er|]; cbn.
  all: repeat step.
  all: rewrite ?in_app_iff; intros [H|[H|H]];
    [apply Hv in H; discriminate|apply Hs in H; discriminate|].
  all: cbn in H;
    repeat (destruct H as [H|H]; [try discriminate H|]); try contradiction.
  all: injection H as <- <- <- <-; eexists; split; [reflexivity|].
  all: try reflexivity.
  all: split; [reflexivity|].
  all: intros ev; rewrite ?in_app_iff; intros [H|[H|H]]; auto.
  all: cbn in H; repeat (destruct H as [<-|H]; [reflexivity|]); contradiction.
Qed.
End BuyoutRecipient.

(** X8, witness: buying listing 7 for the seller's account. *)
Lemma buyoutListing_recipient_witness :
  exists buyFor,
    nth_error [ANum (BnNumber 7); AStr seller; ANum (BnBig 1); AStr token_addr;
               ANum (BnBig 2000000000000000000)] 1 = Some (AStr buyFor) /\
    buyFor = seller.
Proof.
  destruct (buyoutListing_recipient w_direct (BnNumber 7) (BnNumber 1)
              (Some seller) md0 1%nat "buy"
              [ANum (BnNumber 7); AStr seller; ANum (BnBig 1); AStr token_addr;
               ANum (BnBig 2000000000000000000)] (Some []))
    as (b & Hb & Hr).
  - vm_compute. auto 20.
  - exists b. split; [exact Hb|]. cbn in Hr. apply Hr.
Defined.

(** X9: [buyoutListing] does buy: when the id and the quantity convert,
    [getListing] returns the listing, [isStillValidListing] answers
    [true], and the recipient, the call overrides and the allowance
    answer, the [buy] transaction is sent for the total price, with the
    overrides as [setErc20Allowance] left them, and the method ends as
    that transaction does. *)
Theorem buyoutListing_submits (w : World) (i q : BigNumberish)
    (rcv : option string) (o : MarketplaceDirect.t) (n : Z) (d : DirectListing)
    (buyFor : string) (qn p : Z) (ovo : option CallOverrides)
    (ov : CallOverrides) :
  let c := MarketplaceDirect.contractWrapper o in
  let args := [ANum i; AStr buyFor; ANum (BnBig qn);
               AStr (dl_currencyContractAddress d); ANum (BnBig (p * qn))] in
  BigNumber_from i = Ok n ->
  result (MarketplaceDirect.getListing w (BnBig n) o) = Ok d ->
  result (MarketplaceDirect.isStillValidListing w d (Some q) o) = Ok true ->
  match rcv with
  | Some r => if String.eqb r "" then cw_getSignerAddress w c else Ok r
  | None => cw_getSignerAddress w c
  end = Ok buyFor ->
  BigNumber_from q = Ok qn ->
  BigNumber_from (dl_buyoutPrice d) = Ok p ->
  cw_getCallOverrides w c = Ok ovo ->
  setErc20Allowance w c (p * qn) (dl_currencyContractAddress d)
    (match ovo with Some v => v | None => [] end) = Ok ov ->
  In (ESendTransaction c "buy" args (Some ov))
     (trace (MarketplaceDirect.buyoutListing w i q rcv o)) /\
  result (MarketplaceDirect.buyoutListing w i q rcv o)
  = match cw_sendTransaction w c "buy" args (Some ov) with
    | Ok x => Ok {| receipt := x |}
    | Throw e => Throw e
    end.
Proof.
  intros c args Hn Hd Hs Hb Hq Hp Ho Ha; subst c args.
  unfold MarketplaceDirect.buyoutListing, MarketplaceDirect.getCallOverrides,
    MarketplaceDirect.allowance, MarketplaceDirect.sendTransaction,
    MarketplaceDirect.wrapper; run.
  rewrite Hn; cbn.
  rewrite (frame_eta (frame_validateListing w n) o); cbn.
  rewrite validateListing_result, Hd; cbn.
  rewrite (frame_eta (frame_isStillValidListing w d (Some q)) o); cbn.
  rewrite Hs; cbn.
  destruct rcv as [r|]; [destruct (String.eqb r "")|]; cbn;
    try (injection Hb as ->); try rewrite Hb; cbn;
    rewrite Hq; cbn; rewrite Hp; cbn; rewrite Ho; cbn; rewrite Ha; cbn;
    (destruct (cw_sendTransaction _ _ _ _ _); cbn;
     (split; [rewrite !in_app_iff; cbn; auto 10|reflexivity])).
Qed.

(** X9, witness: three tokens of listing 7, an ERC1155 the seller holds. *)
Lemma buyoutListing_submits_witness :
  In (ESendTransaction 1%nat "buy"
        [ANum (BnNumber 7); AStr buyer; ANum (BnBig 3); AStr token_addr;
         ANum (BnBig 6000000000000000000)] (Some []))
     (trace (MarketplaceDirect.buyoutListing w_1155 (BnNumber 7) (BnString "3")
               None md0)).
Proof.
  apply (buyoutListing_submits w_1155 (BnNumber 7) (BnString "3") None md0
           (n := 7) (d := direct7) (buyFor := buyer) (qn := 3)
           (p := 2000000000000000000) (ovo := None) (ov := [])
           eq_refl eq_refl eq_refl eq_refl eq_refl eq_refl eq_refl eq_refl).
Defined.

(** ** createListing: order and outcome *)

Section CreateListingOrder.
Import MarketplaceDirect.
Variable w : World.

(** X10: [createListing] emits nothing when [validateNewListingParam]
    throws; and whenever it sends a transaction, its calls were exactly
    the signer's address, the token approval (which answered), the price
    normalization, the latest block and then that transaction, last. *)
Theorem createListing_order listing o :
  let c := contractWrapper o in
  let p := cw_getProvider w c in
  let r := createListing w listing o in
  (forall e, validateNewListingParam w listing = Throw e ->
     r = mkOutcome (Throw e) o [])
  /\
  (forall c' fn args ov,
     In (ESendTransaction c' fn args ov) (trace r) ->
     exists signer,
       handleTokenApproval w (cw_getSignerOrProvider w c) (cw_address w c)
         (nl_assetContractAddress listing) (nl_tokenId listing) signer = Ok tt /\
       trace r =
         [EGetSignerAddress c;
          EHandleTokenApproval (cw_getSignerOrProvider w c) (cw_address w c)
            (nl_assetContractAddress listing) (nl_tokenId listing) signer;
          ENormalizePriceValue p (nl_buyoutPricePerToken listing)
            (nl_currencyContractAddress listing);
          EGetBlock p "latest";
          ESendTransaction c' fn args ov]).
Proof.
  cbv zeta; split.
  - intros e He. unfold createListing; run. rewrite He. reflexivity.
  - intros c' fn args ov.
    unfold createListing, getProvider, getAddress, wrapper; run.
    repeat first
      [ step
      | match goal with
        | |- context [match cw_parseLogs ?a ?b ?c ?d with _ => _ end] =>
            destruct (cw_parseLogs a b c d); cbn
        end ].
    all: intro H;
      repeat (destruct H as [H|H]; [try discriminate H|]); try contradiction.
    all: injection H as <- <- <- <-; eexists; split;
      [ match goal with u : unit |- _ => destruct u end; eassumption
      | reflexivity ].
Qed.

(** X11: once the [createListing] transaction has returned a receipt, the
    method returns the [listingId] of the first [ListingAdded] event
    parsed from it, and throws a [TypeError] when there is none, the
    transaction having been sent either way. *)
Theorem createListing_result listing o signer n bt rcpt :
  let c := contractWrapper o in
  let p := cw_getProvider w c in
  let params :=
    listingParameters listing n (Z.max (nl_startTimestamp listing / 1000) bt) in
  validateNewListingParam w listing = Ok tt ->
  cw_getSignerAddress w c = Ok signer ->
  handleTokenApproval w (cw_getSignerOrProvider w c) (cw_address w c)
    (nl_assetContractAddress listing) (nl_tokenId listing) signer = Ok tt ->
  normalizePriceValue w p (nl_buyoutPricePerToken listing)
    (nl_currencyContractAddress listing) = Ok n ->
  provider_getBlock w p "latest" = Ok bt ->
  - MAX_SAFE < Z.max (nl_startTimestamp listing / 1000) bt < MAX_SAFE ->
  cw_sendTransaction w c "createListing" [AListing params] (Some gas_overrides)
  = Ok rcpt ->
  In (ESendTransaction c "createListing" [AListing params] (Some gas_overrides))
     (trace (createListing w listing o)) /\
  result (createListing w listing o)
  = match cw_parseLogs w c "ListingAdded" rcpt with
    | listingId :: _ => Ok {| id := listingId; receipt_id := rcpt |}
    | [] => Throw (TypeError "Cannot read properties of undefined (reading 'args')")
    end.
Proof.
  intros c p params Hv Hs Ha Hn Hb Hr Ht; subst c p params.
  split.
  - rewrite (createListing_submits w listing o Hv Hs Ha Hn Hb Hr). cbn. auto 10.
  - unfold createListing, getProvider, getAddress, wrapper; run.
    rewrite Hv; cbn. rewrite Hs; cbn. rewrite Ha; cbn. rewrite Hn; cbn.
    rewrite Hb; cbn. rewrite start_time_max.
    unfold BigNumber_from.
    replace ((MAX_SAFE <=? _) || _) with false
      by (symmetry; apply orb_false_iff; split;
          [apply Z.leb_gt|apply Z.leb_gt]; lia).
    cbn. rewrite Ht; cbn. destruct (cw_parseLogs _ _ _ _); reflexivity.
Qed.
End CreateListingOrder.

(** X10, witness: the sample listing. *)
Lemma createListing_order_witness :
  exists signer,
    handleTokenApproval w_direct 201%nat market asset_addr (BnString "5") signer
    = Ok tt.
Proof.
  destruct (createListing_order w_direct newListing md0) as (_ & H).
  destruct (H 1%nat "createListing"
              [AListing (MarketplaceDirect.listingParameters newListing
                           2000000000000000000 1700000100)]
              (Some MarketplaceDirect.gas_overrides))
    as (s & Hs & _).
  - vm_compute. auto 10.
  - exists s. exact Hs.
Defined.

(** X11, witness: the sample listing gets id 7. *)
Lemma createListing_result_witness :
  result (MarketplaceDirect.createListing w_direct newListing md0)
  = Ok {| id := 7; receipt_id := txReceipt 1 |}.
Proof.
  destruct (createListing_result w_direct newListing md0 (signer := buyer)
              (n := 2000000000000000000) (bt := 1700000100)
              (rcpt := txReceipt 1) eq_refl eq_refl eq_refl eq_refl eq_refl)
    as (_ & H); [vm_compute; split; reflexivity|reflexivity|].
  rewrite H. reflexivity.
Defined.

(** A receipt without a [ListingAdded] event: the listing was created and
    the method throws. *)
Example createListing_no_event :
  let w0 := world_of (scenario (listing7 asset_addr 0) true false seller 0) in
  let quiet_logs := {|
    cw_address := cw_address w0; cw_getProvider := cw_getProvider w0;
    cw_getSignerOrProvider := cw_getSignerOrProvider w0;
    cw_getSignerAddress := cw_getSignerAddress w0;
    cw_getCallOverrides := cw_getCallOverrides w0;
    cw_listings := cw_listings w0; cw_offers := cw_offers w0;
    cw_primarySaleRecipient := cw_primarySaleRecipient w0;
    cw_encodeFunctionData := cw_encodeFunctionData w0;
    cw_sendTransaction := cw_sendTransaction w0;
    cw_multiCall := cw_multiCall w0;
    cw_parseLogs := fun _ _ _ => [];
    provider_getBlock := provider_getBlock w0;
    supportsInterface := supportsInterface w0; ownerOf := ownerOf w0;
    balanceOf := balanceOf w0; isNativeToken := isNativeToken w0;
    normalizePriceValue := normalizePriceValue w0;
    setErc20Allowance := setErc20Allowance w0;
    fetchCurrencyValue := fetchCurrencyValue w0;
    fetchTokenMetadataForContract := fetchTokenMetadataForContract w0;
    handleTokenApproval := handleTokenApproval w0;
    isTokenApprovedForMarketplace := isTokenApprovedForMarketplace w0;
    mapOffer := mapOffer w0;
    validateNewListingParam := validateNewListingParam w0;
    isAddress := isAddress w0; normalizeAmount := normalizeAmount w0 |} in
  result (MarketplaceDirect.createListing quiet_logs newListing md0)
  = Throw (TypeError "Cannot read properties of undefined (reading 'args')")
  /\ List.length (filter is_write
                    (trace (MarketplaceDirect.createListing quiet_logs newListing md0)))
     = 2%nat.
Proof. split; reflexivity. Qed.

(** ** Erc20BatchMintable.to: failure and the empty batch *)

Section BatchMintFailure.
Import Erc20BatchMintable.
Variable w : World.

Lemma encode_one_throw bad o e :
  normalizeAmount w (erc20 o) (amount bad) = Throw e \/
  (exists n,
     normalizeAmount w (erc20 o) (amount bad) = Ok n /\
     cw_encodeFunctionData w (contractWrapper o) "mintTo"
       [AStr (toAddress bad); ANum (BnBig n)] = Throw e) ->
  encode_one w bad o
  = mkOutcome (Throw e) o [ENormalizeAmount (erc20 o) (amount bad)].
Proof.
  unfold encode_one; run. intros [H|(n & Hn & He)].
  - rewrite H. reflexivity.
  - rewrite Hn; cbn. rewrite He. reflexivity.
Qed.

Lemma encode_loop_throw bad rest o e pre encs :
  Forall2 (encodes w o) pre encs ->
  encode_one w bad o
  = mkOutcome (Throw e) o [ENormalizeAmount (erc20 o) (amount bad)] ->
  forall encoded,
    encode_loop w (pre ++ bad :: rest) encoded o
    = mkOutcome (Throw e) o (normalize_events o (pre ++ [bad])).
Proof.
  intros HF Hb. induction HF as [|arg x pre encs Hx HF IH]; intro encoded.
  - cbn [app encode_loop]. unfold bind. rewrite Hb. reflexivity.
  - cbn [app encode_loop]. unfold bind at 1.
    rewrite (encode_one_ok Hx), IH. reflexivity.
Qed.

(** X12: [to] is all or nothing.  When the inputs before some input
    normalize and encode, and that input's amount does not normalize or
    its call does not encode, [to] throws that error, has asked for the
    normalizations up to that input only, and submits no [multiCall]. *)
Theorem to_all_or_nothing pre bad rest o encs e :
  Forall2 (encodes w o) pre encs ->
  (normalizeAmount w (erc20 o) (amount bad) = Throw e \/
   exists n,
     normalizeAmount w (erc20 o) (amount bad) = Ok n /\
     cw_encodeFunctionData w (contractWrapper o) "mintTo"
       [AStr (toAddress bad); ANum (BnBig n)] = Throw e) ->
  to w (pre ++ bad :: rest) o
  = mkOutcome (Throw e) o (normalize_events o (pre ++ [bad])).
Proof.
  intros HF Hb. unfold to, bind at 1.
  rewrite (encode_loop_throw bad rest HF (encode_one_throw bad o Hb)).
  reflexivity.
Qed.

(** For an empty list of inputs [to] still submits one [multiCall], of
    the empty array, and ends as it does. *)
Lemma to_empty o :
  to w [] o
  = mkOutcome
      (match cw_multiCall w (contractWrapper o) [] with
       | Ok x => Ok {| receipt := x |}
       | Throw e => Throw e
       end)
      o [EMultiCall (contractWrapper o) []].
Proof. unfold to; run. destruct (cw_multiCall _ _ _); reflexivity. Qed.
End BatchMintFailure.

(** X12, witness: the second of three amounts is not a number. *)
Lemma to_all_or_nothing_witness :
  Erc20BatchMintable.to w_direct
    ([ {| toAddress := buyer; amount := "2" |} ]
     ++ {| toAddress := seller; amount := "five" |}
     :: [ {| toAddress := buyer; amount := "1" |} ]) bm0
  = mkOutcome (Throw (ExternalError "units")) bm0
      [ENormalizeAmount 3%nat "2"; ENormalizeAmount 3%nat "five"].
Proof.
  rewrite (@to_all_or_nothing w_direct
             [ {| toAddress := buyer; amount := "2" |} ]
             {| toAddress := seller; amount := "five" |}
             [ {| toAddress := buyer; amount := "1" |} ] bm0
             ["mintTo(0x2222222222222222222222222222222222222222,2000000000000000000)"]
             (ExternalError "units")).
  - reflexivity.
  - constructor; [|constructor].
    exists 2000000000000000000. split; reflexivity.
  - left. reflexivity.
Defined.

(** ** isStillValidListing and the quantity *)

Section StillValidQuantity.
Import MarketplaceDirect.
Variable w : World.

(** X13: for an asset that supports ERC721 the quantity plays no part:
    [isStillValidListing] does the same, call for call, whatever quantity
    it is given. *)
Theorem isStillValidListing_erc721_any_quantity l q q' o :
  supportsInterface w (dl_assetContractAddress l)
    (cw_getProvider w (contractWrapper o)) InterfaceId_IERC721 = Ok true ->
  isStillValidListing w l q o = isStillValidListing w l q' o.
Proof.
  intro H.
  unfold isStillValidListing, getProvider, getAddress, wrapper, console_error;
    run.
  destruct (isTokenApprovedForMarketplace _ _ _ _ _ _) as [[|]|e]; cbn;
    try reflexivity.
  rewrite H; cbn. reflexivity.
Qed.

(** X14: a listing that is still valid for a quantity is still valid for
    any smaller quantity, both given and truthy. *)
Theorem isStillValidListing_fewer l q q' o n n' :
  truthy (Some q) = true ->
  truthy (Some q') = true ->
  BigNumber_from q = Ok n ->
  BigNumber_from q' = Ok n' ->
  n' <= n ->
  result (isStillValidListing w l (Some q) o) = Ok true ->
  result (isStillValidListing w l (Some q') o) = Ok true.
Proof.
  intros Ht Ht' Hn Hn' Hle H.
  apply isStillValidListing_true in H. apply isStillValidListing_true.
  destruct H as (Ha & b1 & b2 & H1 & H2 & H3).
  split; [exact Ha|]. exists b1, b2. split; [exact H1|]. split; [exact H2|].
  destruct b1; [exact H3|].
  destruct H3 as (Hb & bal & m & Hbal & Hm & Hlt).
  split; [exact Hb|]. exists bal, n'.
  unfold or_else in *. rewrite Ht in Hm. rewrite Ht'.
  rewrite Hn in Hm. injection Hm as <-.
  split; [exact Hbal|]. split; [exact Hn'|lia].
Qed.
End StillValidQuantity.

(** X13, witness: the owner test alone decides for the ERC721 listing. *)
Lemma isStillValidListing_erc721_any_quantity_witness :
  MarketplaceDirect.isStillValidListing w_direct direct7 (Some (BnNumber 1000)) md0
  = MarketplaceDirect.isStillValidListing w_direct direct7 None md0.
Proof.
  apply (@isStillValidListing_erc721_any_quantity w_direct direct7
           (Some (BnNumber 1000)) None md0 eq_refl).
Defined.

(** X14, witness: three are available, so two are. *)
Lemma isStillValidListing_fewer_witness :
  result (MarketplaceDirect.isStillValidListing w_1155 direct7
            (Some (BnString "2")) md0) = Ok true.
Proof.
  apply (@isStillValidListing_fewer w_1155 direct7 (BnNumber 3) (BnString "2")
           md0 3 2 eq_refl eq_refl eq_refl eq_refl);
    [lia|reflexivity].
Defined.

(** ** getActiveOffer: an offer that exists *)

(** X15: when the id converts, [getListing] returns, the address is valid
    and the stored offer has an offeror other than the zero address,
    [getActiveOffer] returns what [mapOffer] makes of that offer for the
    id as a [BigNumber], after reading the listing and the offer. *)
Theorem getActiveOffer_active (w : World) (i : BigNumberish) (a : string)
    (o : MarketplaceDirect.t) (n : Z) (d : DirectListing) (os : OfferStruct) :
  let c := MarketplaceDirect.contractWrapper o in
  let p := cw_getProvider w c in
  BigNumber_from i = Ok n ->
  result (MarketplaceDirect.getListing w (BnBig n) o) = Ok d ->
  isAddress w a = true ->
  cw_offers w c i a = Ok os ->
  os_offeror os <> AddressZero ->
  MarketplaceDirect.getActiveOffer w i a o
  = mkOutcome
      (match mapOffer w p n os with
       | Ok x => Ok (Some x)
       | Throw e => Throw e
       end)
      o
      (trace (MarketplaceDirect.getListing w (BnBig n) o)
       ++ [EOffers c i a; EMapOffer p n os])%list.
Proof.
  intros c p Hn Hd Ha Ho Hz; subst c p.
  unfold MarketplaceDirect.getActiveOffer, MarketplaceDirect.getProvider,
    MarketplaceDirect.wrapper; run.
  rewrite Hn; cbn. rewrite (validateListing_ok w n o Hd).
  rewrite (frame_eta (frame_getListing w (BnBig n)) o); cbn.
  rewrite Hd; cbn. rewrite Ha; cbn. rewrite Ho; cbn.
  apply String.eqb_neq in Hz. rewrite Hz; cbn.
  destruct (mapOffer _ _ _ _); reflexivity.
Qed.

(** X15, witness: an offer of the buyer on listing 7. *)
Lemma getActiveOffer_active_witness :
  let w_offer :=
    world_of {| sc_listing := Ok (listing7 asset_addr 0);
                sc_offer := {| os_listingId := BnBig 7;
                               os_offeror := buyer;
                               os_quantityWanted := BnBig 1;
                               os_currency := token_addr;
                               os_pricePerToken := BnBig 1500000000000000000;
                               os_expirationTimestamp := BnBig 1700090000 |};
                sc_approved := true; sc_erc721 := true; sc_erc1155 := false;
                sc_owner := seller; sc_balance := 0;
                sc_blockTime := 1700000100 |} in
  result (MarketplaceDirect.getActiveOffer w_offer (BnString "7") buyer md0)
  = Ok (Some (offer 0)).
Proof.
  intro w_offer.
  rewrite (@getActiveOffer_active w_offer (BnString "7") buyer md0 7 direct7
             (sc_offer _) eq_refl eq_refl eq_refl eq_refl);
    [reflexivity|discriminate].
Defined.
